(** * llmbo: batch-inference job lifecycle and structured-output validation

    A shallow embedding of [src/llmbo/llmbo.py]: the [BatchInferer] job
    controller, its [StructuredBatchInferer] subclass and the values they
    exchange with boto3, the file system and pydantic.

    Conventions of the embedding.
    - Values that come out of [json.loads] or of a boto3 response are
      [pyval]s; a Python dict is an association list in insertion order.
    - A Python call either returns or raises: [Outcome].  Only the class of
      an exception is kept, not its message.
    - A method that mutates [self] or talks to a service is a function from
      the state before to an outcome and the state after.  The state after a
      raise keeps every assignment made before it, as in Python.
    - Calls to [logger] are left out: nothing in the program reads the log.
    - The exception classes of the code are kept under their Python names.
      The design document speaks of ValidationError and PreconditionError
      where the code raises [ValueError], and of InvalidOperationError where
      it raises [TypeError]. *)

From Stdlib Require Import String Ascii List ZArith Bool Arith Lia.
Import ListNotations.
Open Scope string_scope.
Set Warnings "-register-all".

(** ** Python values *)

(** [PFloat] carries the binary64 bit pattern: the program stores and
    forwards floats, it never computes with them. *)
Inductive pyval : Type :=
| PNone : pyval
| PBool : bool -> pyval
| PInt : Z -> pyval
| PFloat : Z -> pyval
| PStr : string -> pyval
| PList : list pyval -> pyval
| PDict : list (string * pyval) -> pyval.

Inductive exn : Type :=
| KeyError
| IndexError
| TypeError
| AttributeError
| ValueError
| RuntimeError
| FileNotFoundError
| JSONDecodeError
| PydanticValidationError
| ClientError (code : string).

Inductive Outcome (A : Type) : Type :=
| Return : A -> Outcome A
| Raise : exn -> Outcome A.
Arguments Return {A} _.
Arguments Raise {A} _.

(** [isinstance(e, TypeError)], for the handler of [validate_result]. *)
Definition is_TypeError (e : exn) : bool :=
  match e with TypeError => true | _ => false end.

(** [isinstance(e, (KeyError, IndexError))]. *)
Definition is_KeyError_or_IndexError (e : exn) : bool :=
  match e with KeyError | IndexError => true | _ => false end.

Definition is_ClientError (e : exn) : bool :=
  match e with ClientError _ => true | _ => false end.

Module Py.

(** Lookup in a dict kept in insertion order. *)
Fixpoint lookup (k : string) (d : list (string * pyval)) : option pyval :=
  match d with
  | [] => None
  | (k', v) :: d' => if String.eqb k k' then Some v else lookup k d'
  end.

(** [bool(v)]. *)
Definition truthy (v : pyval) : bool :=
  match v with
  | PNone => false
  | PBool b => b
  | PInt n => negb (Z.eqb n 0)
  | PFloat bits => negb (Z.eqb (bits mod 2 ^ 63) 0)
  | PStr s => negb (String.eqb s "")
  | PList l => match l with [] => false | _ => true end
  | PDict d => match d with [] => false | _ => true end
  end.

(** [v == s] for a string literal [s]. *)
Definition eq_str (v : pyval) (s : string) : bool :=
  match v with PStr t => String.eqb t s | _ => false end.

(** [v in strs] for a list of string literals. *)
Definition in_strs (v : pyval) (strs : list string) : bool :=
  existsb (eq_str v) strs.

(** [v[k]] for a string key [k]. *)
Definition getitem (v : pyval) (k : string) : Outcome pyval :=
  match v with
  | PDict d => match lookup k d with
               | Some x => Return x
               | None => Raise KeyError
               end
  | _ => Raise TypeError
  end.

(** [v[0]]. *)
Definition getitem0 (v : pyval) : Outcome pyval :=
  match v with
  | PList l => match l with x :: _ => Return x | [] => Raise IndexError end
  | PStr s => match s with
              | String c _ => Return (PStr (String c EmptyString))
              | EmptyString => Raise IndexError
              end
  | PDict _ => Raise KeyError
  | _ => Raise TypeError
  end.

(** [len(v)]. *)
Definition len (v : pyval) : Outcome nat :=
  match v with
  | PList l => Return (List.length l)
  | PDict d => Return (List.length d)
  | PStr s => Return (String.length s)
  | _ => Raise TypeError
  end.

(** [v.get(k)] on a dict, [None] when the key is absent. *)
Definition dict_get (v : pyval) (k : string) : Outcome pyval :=
  match v with
  | PDict d => match lookup k d with
               | Some x => Return x
               | None => Return PNone
               end
  | _ => Raise AttributeError
  end.

(** [v == n] for an integer literal [n].  No float is compared here: the
    one use is on botocore's [HTTPStatusCode], an int. *)
Definition eq_int (v : pyval) (n : Z) : bool :=
  match v with
  | PInt m => Z.eqb m n
  | PBool b => Z.eqb (Z.b2z b) n
  | _ => false
  end.

(** The receiver of a [str] method: anything but a string has no such
    attribute. *)
Definition str_receiver (v : pyval) : Outcome string :=
  match v with PStr s => Return s | _ => Raise AttributeError end.

(** A member that the service model of boto3 declares as a string, taken
    as one.  boto3 never builds another value there; [TypeError] stands for
    whatever the program would do with one. *)
Definition as_str (v : pyval) : Outcome string :=
  match v with PStr s => Return s | _ => Raise TypeError end.

End Py.

(** Sequencing of calls that may raise. *)
Definition obind {A B : Type} (o : Outcome A) (k : A -> Outcome B) : Outcome B :=
  match o with
  | Return a => k a
  | Raise e => Raise e
  end.

Notation "'try!' x <- c1 ; c2" := (obind c1 (fun x => c2))
  (at level 61, x name, c1 at next level, right associativity).

Definition VALID_FINISHED_STATUSES : list string :=
  ["Completed"; "Failed"; "Stopped"; "Expired"].

(** ** The caller's schema

    [output_model] is a pydantic class.  The program uses its [__name__],
    its [__doc__], its [model_json_schema()] and its constructor called with
    keyword arguments.  pydantic is not part of the repository: a schema is a
    record of these four, the constructor being any function from the
    keyword arguments to an instance or an exception. *)
Record OutputModel (Inst : Type) : Type := {
  om_name : string;
  om_doc : option string;
  om_json_schema : pyval;
  om_init : list (string * pyval) -> Outcome Inst
}.
Arguments om_name {Inst} _.
Arguments om_doc {Inst} _.
Arguments om_json_schema {Inst} _.
Arguments om_init {Inst} _ _.

(** The call of [output_model] with the payload unpacked as keyword
    arguments: unpacking something that is not a mapping is a [TypeError]
    raised at the call, before the constructor runs. *)
Definition call_with_kwargs {Inst : Type} (om : OutputModel Inst) (payload : pyval)
  : Outcome Inst :=
  match payload with
  | PDict kw => om_init om kw
  | _ => Raise TypeError
  end.

(** ** StructuredBatchInferer.validate_result *)

(** [try: body except C: handler], [handles] deciding membership in [C]. *)
Definition try_except {A : Type} (body : Outcome A) (handles : exn -> bool)
    (handler : exn -> Outcome A) : Outcome A :=
  match body with
  | Return a => Return a
  | Raise e => if handles e then handler e else Raise e
  end.

Definition validate_result {Inst : Type} (om : OutputModel Inst) (result : pyval)
  : Outcome (option Inst) :=
  try! stop_reason <- Py.getitem result "stop_reason";
  if negb (Py.eq_str stop_reason "tool_use") then Return None
  else
    try! content <- Py.getitem result "content";
    try! n <- Py.len content;
    if negb (Nat.eqb n 1) then Return None
    else
      try! block <- Py.getitem0 content;
      try! ty <- Py.getitem block "type";
      if Py.eq_str ty "tool_use" then
        try_except
          (try! payload <- Py.getitem block "input";
           try! output <- call_with_kwargs om payload;
           Return (Some output))
          is_TypeError
          (fun _ => Return None)
      else Return None.

(** The list comprehension of [StructuredBatchInferer.load_results]: one
    entry per raw result, [None] for a result without a truthy
    ["modelOutput"]; an exception in any entry ends the comprehension. *)
Definition instance_of {Inst : Type} (om : OutputModel Inst) (result : pyval)
  : Outcome (option (pyval * option Inst)) :=
  try! present <- Py.dict_get result "modelOutput";
  if Py.truthy present then
    try! record_id <- Py.getitem result "recordId";
    try! model_output <- Py.getitem result "modelOutput";
    try! validated <- validate_result om model_output;
    Return (Some (record_id, validated))
  else Return None.

Fixpoint instances_of {Inst : Type} (om : OutputModel Inst) (results : list pyval)
  : Outcome (list (option (pyval * option Inst))) :=
  match results with
  | [] => Return []
  | result :: rest =>
      try! entry <- instance_of om result;
      try! entries <- instances_of om rest;
      Return (entry :: entries)
  end.

(** ** NameAgeModel

    The schema declared in the module: [name: str], [age: int], no
    docstring.  Its constructor is pydantic's: a missing required field, or a
    field of the wrong type, raises pydantic's [ValidationError] (a subclass
    of [ValueError]); fields that are not declared are ignored.  pydantic's
    coercions of near-miss values (a numeric string for [age], say) are not
    modelled: such a payload is rejected here. *)
Record NameAge : Type := { na_name : string; na_age : Z }.

Definition NameAgeModel_init (kw : list (string * pyval)) : Outcome NameAge :=
  match Py.lookup "name" kw, Py.lookup "age" kw with
  | Some (PStr n), Some (PInt a) => Return {| na_name := n; na_age := a |}
  | _, _ => Raise PydanticValidationError
  end.

Definition NameAgeModel : OutputModel NameAge := {|
  om_name := "NameAgeModel";
  om_doc := None;
  om_json_schema :=
    PDict [("properties",
            PDict [("name", PDict [("title", PStr "Name"); ("type", PStr "string")]);
                   ("age", PDict [("title", PStr "Age"); ("type", PStr "integer")])]);
           ("required", PList [PStr "name"; PStr "age"]);
           ("title", PStr "NameAgeModel");
           ("type", PStr "object")];
  om_init := NameAgeModel_init
|}.

(** A raw result in the shape of the docstring example of [validate_result]. *)
Definition tool_use_result (payload : pyval) : pyval :=
  PDict [("stop_reason", PStr "tool_use");
         ("content", PList [PDict [("type", PStr "tool_use"); ("input", payload)]])].

Definition john_30 : pyval := PDict [("name", PStr "John"); ("age", PInt 30)].
Definition john_without_age : pyval := PDict [("name", PStr "John")].

(** ** State and exceptions

    A computation over a state [S]: it returns or raises, and hands on the
    state it has reached. *)
Definition M (S A : Type) : Type := S -> Outcome A * S.

Definition ret {S A : Type} (a : A) : M S A := fun s => (Return a, s).

Definition raise {S A : Type} (e : exn) : M S A := fun s => (Raise e, s).

Definition bind {S A B : Type} (m : M S A) (k : A -> M S B) : M S B :=
  fun s =>
    match m s with
    | (Return a, s') => k a s'
    | (Raise e, s') => (Raise e, s')
    end.

Definition lift {S A : Type} (o : Outcome A) : M S A := fun s => (o, s).

(** [try: body except C as e: handler e]. *)
Definition catch {S A : Type} (body : M S A) (handles : exn -> bool)
    (handler : exn -> M S A) : M S A :=
  fun s =>
    match body s with
    | (Return a, s') => (Return a, s')
    | (Raise e, s') => if handles e then handler e s' else (Raise e, s')
    end.

(** [m] run [n] times in a row, the results in order. *)
Fixpoint repeatM {S A : Type} (n : nat) (m : M S A) : M S (list A) :=
  match n with
  | O => fun s => (Return [], s)
  | S n' =>
      bind m (fun a => bind (repeatM n' m) (fun rest => ret (a :: rest)))
  end.

Notation "x <- c1 ;; c2" := (bind c1 (fun x => c2))
  (at level 61, c1 at next level, right associativity).
Notation "c1 ;; c2" := (bind c1 (fun _ => c2))
  (at level 61, right associativity).

(** ** Strings *)

(** [s.split("/")]: never empty, one more piece than there are slashes. *)
Fixpoint split_slash (s : string) : list string :=
  match s with
  | EmptyString => [EmptyString]
  | String c s' =>
      if Ascii.eqb c "/"%char then EmptyString :: split_slash s'
      else match split_slash s' with
           | piece :: pieces => String c piece :: pieces
           | [] => [String c EmptyString]
           end
  end.

(** [pieces[-1]] of a list of strings. *)
Definition last_piece (pieces : list string) : Outcome string :=
  match pieces with
  | [] => Raise IndexError
  | p :: ps => Return (List.last ps p)
  end.

(** [pieces[2]]. *)
Definition third_piece (pieces : list string) : Outcome string :=
  match List.nth_error pieces 2 with
  | Some p => Return p
  | None => Raise IndexError
  end.

(** [s.startswith(p)]. *)
Definition startswith (s p : string) : bool := String.prefix p s.

(** ** The outside world

    What the program reaches through boto3, [os] and [json].  [Env] fixes how
    the collaborators answer; [World] is what the program changes: the calls
    it has issued, latest first, and the local files. *)
Inductive Event : Type :=
| HeadBucket (bucket : string)
| GetBucketLocation (bucket : string)
| GetRole (role_name : string)
| GetModelInvocationJob (job_identifier : option string)
| DownloadFile (bucket key filename : string).

Record Env : Type := {
  (** S3 [head_bucket] and [get_bucket_location]. *)
  head_bucket_reply : string -> Outcome unit;
  get_bucket_location_reply : string -> Outcome pyval;
  (** IAM [get_role]. *)
  get_role_reply : string -> Outcome unit;
  (** Bedrock [get_model_invocation_job], given the calls issued before it:
      the answer for one job changes as the job advances. *)
  get_model_invocation_job_reply : list Event -> option string -> Outcome pyval;
  (** The lines of the object stored in a bucket under a key, if any. *)
  s3_object : string -> string -> option (list string);
  (** [os.getenv("AWS_PROFILE")]. *)
  AWS_PROFILE : option string;
  (** [str(uuid4())[:6]]. *)
  uuid4_prefix : string;
  (** [json.loads(line.strip())]. *)
  json_loads_stripped : string -> Outcome pyval;
  (** [os.path.splitext]. *)
  os_path_splitext : string -> string * string
}.

Record World : Type := {
  calls : list Event;
  files : string -> option (list string)
}.

Definition record_call (ev : Event) (w : World) : World :=
  {| calls := ev :: calls w; files := files w |}.

Definition write_file (path : string) (lines : list string) (w : World) : World :=
  {| calls := calls w;
     files := fun p => if String.eqb p path then Some lines else files w p |}.

(** The number of status queries sent to the batch service so far. *)
Definition status_queries (w : World) : nat :=
  List.length
    (List.filter
       (fun ev => match ev with GetModelInvocationJob _ => true | _ => false end)
       (calls w)).

Section Collaborators.

Variable env : Env.

Definition head_bucket (bucket : string) : M World unit :=
  fun w => (head_bucket_reply env bucket, record_call (HeadBucket bucket) w).

Definition get_bucket_location (bucket : string) : M World pyval :=
  fun w => (get_bucket_location_reply env bucket,
            record_call (GetBucketLocation bucket) w).

Definition get_role (role_name : string) : M World unit :=
  fun w => (get_role_reply env role_name, record_call (GetRole role_name) w).

Definition get_model_invocation_job (job_identifier : option string)
  : M World pyval :=
  fun w => (get_model_invocation_job_reply env (calls w) job_identifier,
            record_call (GetModelInvocationJob job_identifier) w).

(** S3 [download_file]: a missing object is a [ClientError]. *)
Definition download_file (bucket key filename : string) : M World unit :=
  fun w =>
    let w' := record_call (DownloadFile bucket key filename) w in
    match s3_object env bucket key with
    | Some lines => (Return tt, write_file filename lines w')
    | None => (Raise (ClientError "404"), w')
    end.

(** [os.path.exists]. *)
Definition path_exists (path : string) : M World bool :=
  fun w => (Return (match files w path with Some _ => true | None => false end), w).

(** [BatchInferer._read_jsonl]: a static method, shared by both classes. *)
Fixpoint loads_lines (lines : list string) : Outcome (list pyval) :=
  match lines with
  | [] => Return []
  | line :: rest =>
      try! record <- json_loads_stripped env line;
      try! records <- loads_lines rest;
      Return (record :: records)
  end.

Definition _read_jsonl (file_path : string) : M World (list pyval) :=
  fun w =>
    match files w file_path with
    | None => (Raise FileNotFoundError, w)
    | Some lines => (loads_lines lines, w)
    end.

End Collaborators.

(** ** Requests *)

Record Manifest : Type := {
  totalRecordCount : Z;
  processedRecordCount : Z;
  successRecordCount : Z;
  errorRecordCount : Z;
  inputTokenCount : option Z;
  outputTokenCount : option Z
}.

Record ToolChoice : Type := {
  tc_type : string;
  tc_name : option string
}.

(** [tool_choice.__dict__]. *)
Definition ToolChoice_dict (tc : ToolChoice) : pyval :=
  PDict [("type", PStr (tc_type tc));
         ("name", match tc_name tc with Some n => PStr n | None => PNone end)].

(** A dataclass does not check the types of its fields: every field holds
    whatever the caller put there, [PNone] included.  [tool_choice] alone
    holds an object, a [ToolChoice], or [None]. *)
Record ModelInput : Type := {
  messages : pyval;
  anthropic_version : pyval;
  max_tokens : pyval;
  system : pyval;
  stop_sequences : pyval;
  temperature : pyval;
  top_p : pyval;
  top_k : pyval;
  tools : pyval;
  tool_choice : option ToolChoice
}.

Definition is_None (v : pyval) : bool :=
  match v with PNone => true | _ => false end.

(** [ModelInput.to_dict]: the fields that are not [None], in the order of
    their declaration, the tool choice replaced by its [__dict__] (an
    instance of [ToolChoice] is always truthy). *)
Definition to_dict (self : ModelInput) : pyval :=
  PDict
    (List.filter (fun kv => negb (is_None (snd kv)))
       [("messages", messages self);
        ("anthropic_version", anthropic_version self);
        ("max_tokens", max_tokens self);
        ("system", system self);
        ("stop_sequences", stop_sequences self);
        ("temperature", temperature self);
        ("top_p", top_p self);
        ("top_k", top_k self);
        ("tools", tools self);
        ("tool_choice", match tool_choice self with
                        | Some tc => ToolChoice_dict tc
                        | None => PNone
                        end)]).

(** One line of the submission: [{"recordId": id, "modelInput": ...}]. *)
Definition request_record (entry : string * ModelInput) : pyval :=
  PDict [("recordId", PStr (fst entry)); ("modelInput", to_dict (snd entry))].

(** ** BatchInferer *)

Module BatchInferer.

(** The attributes of an instance.  [session] and [client] are handles on
    the collaborators of [Env] and carry no data of their own. *)
Record t : Type := {
  model_name : pyval;
  time_out_duration_hours : Z;
  bucket_name : string;
  bucket_uri : string;
  job_name : string;
  file_name : string;
  output_file_name : option string;
  manifest_file_name : option string;
  role_arn : string;
  region : string;
  job_arn : option string;
  job_status : pyval;
  results : option (list pyval);
  manifest : option Manifest;
  requests : option (list pyval)
}.

Definition set_job_status (v : pyval) (self : t) : t :=
  {| model_name := model_name self;
     time_out_duration_hours := time_out_duration_hours self;
     bucket_name := bucket_name self;
     bucket_uri := bucket_uri self;
     job_name := job_name self;
     file_name := file_name self;
     output_file_name := output_file_name self;
     manifest_file_name := manifest_file_name self;
     role_arn := role_arn self;
     region := region self;
     job_arn := job_arn self;
     job_status := v;
     results := results self;
     manifest := manifest self;
     requests := requests self |}.

Definition set_job_arn (v : option string) (self : t) : t :=
  {| model_name := model_name self;
     time_out_duration_hours := time_out_duration_hours self;
     bucket_name := bucket_name self;
     bucket_uri := bucket_uri self;
     job_name := job_name self;
     file_name := file_name self;
     output_file_name := output_file_name self;
     manifest_file_name := manifest_file_name self;
     role_arn := role_arn self;
     region := region self;
     job_arn := v;
     job_status := job_status self;
     results := results self;
     manifest := manifest self;
     requests := requests self |}.

Definition set_requests (v : option (list pyval)) (self : t) : t :=
  {| model_name := model_name self;
     time_out_duration_hours := time_out_duration_hours self;
     bucket_name := bucket_name self;
     bucket_uri := bucket_uri self;
     job_name := job_name self;
     file_name := file_name self;
     output_file_name := output_file_name self;
     manifest_file_name := manifest_file_name self;
     role_arn := role_arn self;
     region := region self;
     job_arn := job_arn self;
     job_status := job_status self;
     results := results self;
     manifest := manifest self;
     requests := v |}.

Definition set_result_file_names (out man : option string) (self : t) : t :=
  {| model_name := model_name self;
     time_out_duration_hours := time_out_duration_hours self;
     bucket_name := bucket_name self;
     bucket_uri := bucket_uri self;
     job_name := job_name self;
     file_name := file_name self;
     output_file_name := out;
     manifest_file_name := man;
     role_arn := role_arn self;
     region := region self;
     job_arn := job_arn self;
     job_status := job_status self;
     results := results self;
     manifest := manifest self;
     requests := requests self |}.

(** A method of an instance runs on the instance and the world. *)
Definition Method (A : Type) : Type := M (t * World) A.

Definition self_ : Method t := fun s => (Return (fst s), s).

Definition update (f : t -> t) : Method unit :=
  fun s => (Return tt, (f (fst s), snd s)).

Definition in_world {A : Type} (m : M World A) : Method A :=
  fun s => let (o, w') := m (snd s) in (o, (fst s, w')).

Section Methods.

Variable env : Env.

(** [_get_bucket_location]: falls off its end, returning [None], when
    the response is falsy. *)
Definition _get_bucket_location (bucket_name : string) : M World pyval :=
  catch
    (response <- get_bucket_location env bucket_name ;;
     if Py.truthy response then
       region <- lift (Py.getitem response "LocationConstraint") ;;
       ret (if Py.truthy region then region else PStr "us-east-1")
     else ret PNone)
    is_ClientError
    (fun _ => raise ValueError).

Definition _check_bucket (bucket_name region : string) : M World unit :=
  catch (head_bucket env bucket_name) is_ClientError (fun _ => raise ValueError) ;;
  bucket_region <- _get_bucket_location bucket_name ;;
  if negb (Py.eq_str bucket_region region) then raise ValueError
  else ret tt.

Definition check_for_profile : M World unit :=
  match AWS_PROFILE env with
  | Some profile => if String.eqb profile "" then raise KeyError else ret tt
  | None => raise KeyError
  end.

Definition _check_arn (role_arn : string) : M World bool :=
  if negb (startswith role_arn "arn:aws:iam::") then raise ValueError
  else
    role_name <- lift (last_piece (split_slash role_arn)) ;;
    catch
      (get_role env role_name ;; ret true)
      is_ClientError
      (fun e => match e with
                | ClientError code =>
                    if String.eqb code "NoSuchEntity" then raise ValueError
                    else raise e
                | _ => raise e
                end).

(** [__init__].  The assignments between the three checks cannot raise
    and are gathered at the end. *)
Definition init (model_name : pyval) (bucket_name region job_name role_arn : string)
    (time_out_duration_hours : Z) : M World t :=
  _check_bucket bucket_name region ;;
  check_for_profile ;;
  _check_arn role_arn ;;
  ret {| model_name := model_name;
         time_out_duration_hours := time_out_duration_hours;
         bucket_name := bucket_name;
         bucket_uri := "s3://" ++ bucket_name;
         job_name := if String.eqb job_name "" then
                       "batch_inference_" ++ uuid4_prefix env
                     else job_name;
         file_name := job_name ++ ".jsonl";
         output_file_name := None;
         manifest_file_name := None;
         role_arn := role_arn;
         region := region;
         job_arn := None;
         job_status := PNone;
         results := None;
         manifest := None;
         requests := None |}.

(** The property [unique_id_from_arn]. *)
Definition unique_id_from_arn : Method string :=
  self <- self_ ;;
  match job_arn self with
  | None => raise ValueError
  | Some arn =>
      if String.eqb arn "" then raise ValueError
      else lift (last_piece (split_slash arn))
  end.

Definition prepare_requests (inputs : list (string * ModelInput)) : Method unit :=
  if Nat.ltb (List.length inputs) 100 then raise ValueError
  else update (set_requests (Some (List.map request_record inputs))).

Definition check_complete : Method pyval :=
  self <- self_ ;;
  if negb (Py.in_strs (job_status self) VALID_FINISHED_STATUSES) then
    response <- in_world (get_model_invocation_job env (job_arn self)) ;;
    status <- lift (Py.getitem response "status") ;;
    update (set_job_status status) ;;
    self <- self_ ;;
    if Py.in_strs (job_status self) VALID_FINISHED_STATUSES then
      ret (job_status self)
    else ret PNone
  else ret (job_status self).

Definition download_results : Method unit :=
  status <- check_complete ;;
  if Py.in_strs status VALID_FINISHED_STATUSES then
    self <- self_ ;;
    let (file_name_, ext) := os_path_splitext env (file_name self) in
    let out := file_name_ ++ "_out" ++ ext in
    let man := file_name_ ++ "_manifest" ++ ext in
    update (set_result_file_names (Some out) (Some man)) ;;
    unique_id <- unique_id_from_arn ;;
    in_world (download_file env (bucket_name self)
                ("output/" ++ unique_id ++ "/" ++ file_name self ++ ".out") out) ;;
    unique_id <- unique_id_from_arn ;;
    in_world (download_file env (bucket_name self)
                ("output/" ++ unique_id ++ "/manifest.json.out") man)
  else ret tt.

Definition check_for_existing_job (job_arn region : string) : M World pyval :=
  if negb (startswith job_arn "arn:aws:bedrock:") then raise ValueError
  else
    response <-
      catch (get_model_invocation_job env (Some job_arn))
        is_ClientError
        (fun e => match e with
                  | ClientError code =>
                      if String.eqb code "ResourceNotFoundException"
                      then raise ValueError
                      else raise RuntimeError
                  | _ => raise e
                  end) ;;
    metadata <- lift (Py.getitem response "ResponseMetadata") ;;
    http_status <- lift (Py.getitem metadata "HTTPStatusCode") ;;
    if negb (Py.eq_int http_status 200) then raise RuntimeError
    else ret response.

(** The two handlers of the recovery methods: [KeyError] and
    [IndexError] become [ValueError], every other exception becomes
    [RuntimeError]. *)
Definition recovery_handler {A : Type} (e : exn) : M World A :=
  if is_KeyError_or_IndexError e then raise ValueError
  else raise RuntimeError.

(** What both recovery methods read before they build the instance:
    the job name, the model, the bucket, the role and the requests of
    the local submission file. *)
Definition recovered_parameters (response : pyval)
  : M World (string * pyval * string * string * list pyval) :=
  job_name <- lift (Py.getitem response "jobName") ;;
  model_id <- lift (Py.getitem response "modelId") ;;
  input_data_config <- lift (Py.getitem response "inputDataConfig") ;;
  s3_input_data_config <- lift (Py.getitem input_data_config "s3InputDataConfig") ;;
  s3_uri <- lift (Py.getitem s3_input_data_config "s3Uri") ;;
  s3_uri <- lift (Py.str_receiver s3_uri) ;;
  bucket_name <- lift (third_piece (split_slash s3_uri)) ;;
  role_arn <- lift (Py.getitem response "roleArn") ;;
  job_name <- lift (Py.as_str job_name) ;;
  role_arn <- lift (Py.as_str role_arn) ;;
  let input_file := job_name ++ ".jsonl" in
  present <- path_exists input_file ;;
  if negb present then raise FileNotFoundError
  else
    requests <- _read_jsonl env input_file ;;
    ret (job_name, model_id, bucket_name, role_arn, requests).

Definition recover_details_from_job_arn (job_arn region : string) : M World t :=
  response <- check_for_existing_job job_arn region ;;
  catch
    (params <- recovered_parameters response ;;
     let '(job_name, model_id, bucket_name, role_arn, requests) := params in
     bi <- init model_id bucket_name region job_name role_arn 24 ;;
     let bi := set_job_arn (Some job_arn) bi in
     let bi := set_requests (Some requests) bi in
     status <- lift (Py.getitem response "status") ;;
     ret (set_job_status status bi))
    (fun _ => true)
    recovery_handler.

End Methods.

(** *** Polling

    [poll_progress] loops until [check_complete] returns something truthy.
    The loop has no bound of its own: the model takes the number of rounds
    it may run and returns [None] when they are used up.  [time.sleep]
    changes nothing the program reads and is left out. *)
Fixpoint poll_progress (env : Env) (rounds : nat) : Method (option bool) :=
  match rounds with
  | O => ret None
  | S rounds' =>
      status <- check_complete env ;;
      if negb (Py.truthy status) then poll_progress env rounds'
      else ret (Some true)
  end.

(** *** Requests that change the remote side

    [create_model_invocation_job], [stop_model_invocation_job] and the S3
    [upload_file], with the arguments the program passes.  They are logged
    apart from the queries of [World], latest first. *)
Inductive Command : Type :=
| CreateModelInvocationJob (jobName roleArn : string) (modelId : pyval)
    (input_s3Uri output_s3Uri : string) (timeoutDurationInHours : Z)
| StopModelInvocationJob (jobIdentifier : string)
| UploadFile (Filename Bucket Key : string).

Record Session : Type := {
  world : World;
  commands : list Command
}.

(** A method that may send commands runs on the instance and the session. *)
Definition Action (A : Type) : Type := M (t * Session) A.

Definition querying {A : Type} (m : Method A) : Action A :=
  fun s =>
    match m (fst s, world (snd s)) with
    | (o, (self, w)) => (o, (self, {| world := w; commands := commands (snd s) |}))
    end.

Section Commands.

(** How the remote side answers a command. *)
Variable command_reply : Command -> Outcome pyval.

(** [json.dumps]. *)
Variable json_dumps : pyval -> string.

Definition send (c : Command) : Action pyval :=
  fun s =>
    (command_reply c,
     (fst s, {| world := world (snd s); commands := c :: commands (snd s) |})).

Definition newline : string := String (Ascii.ascii_of_nat 10) EmptyString.

(** [_write_requests_locally].  The message it logs first takes
    [len(self.requests)], a [TypeError] while the requests are [None]. *)
Definition _write_requests_locally : Method unit :=
  self <- self_ ;;
  match requests self with
  | None => raise TypeError
  | Some records =>
      in_world
        (fun w =>
           (Return tt,
            write_file (file_name self)
              (List.map (fun record => json_dumps record ++ newline) records) w))
  end.

Definition push_requests_to_s3 : Action pyval :=
  querying _write_requests_locally ;;
  self <- querying self_ ;;
  send (UploadFile (file_name self) (bucket_name self) ("input/" ++ file_name self)).

Definition create : Action pyval :=
  self <- querying self_ ;;
  if match requests self with Some (_ :: _) => true | _ => false end then
    response <-
      send (CreateModelInvocationJob (job_name self) (role_arn self) (model_name self)
              (bucket_uri self ++ "/input/" ++ file_name self)
              (bucket_uri self ++ "/output/")
              (time_out_duration_hours self)) ;;
    if Py.truthy response then
      metadata <- lift (Py.getitem response "ResponseMetadata") ;;
      response_status <- lift (Py.getitem metadata "HTTPStatusCode") ;;
      if Py.eq_int response_status 200 then
        job_arn <- lift (Py.getitem response "jobArn") ;;
        job_arn <- lift (Py.as_str job_arn) ;;
        querying (update (set_job_arn (Some job_arn))) ;;
        ret response
      else raise RuntimeError
    else raise RuntimeError
  else raise AttributeError.

Definition cancel_batch : Action unit :=
  self <- querying self_ ;;
  match job_arn self with
  | None => raise ValueError
  | Some arn =>
      if String.eqb arn "" then raise ValueError
      else
        response <- send (StopModelInvocationJob arn) ;;
        metadata <- lift (Py.getitem response "ResponseMetadata") ;;
        http_status <- lift (Py.getitem metadata "HTTPStatusCode") ;;
        if Py.eq_int http_status 200 then
          querying (update (set_job_status (PStr "Stopped")))
        else raise RuntimeError
  end.

End Commands.

End BatchInferer.

(** ** StructuredBatchInferer *)

Module StructuredBatchInferer.

Record t (Inst : Type) : Type := {
  base : BatchInferer.t;
  output_model : OutputModel Inst;
  tool : pyval;
  instances : option (list (option (pyval * option Inst)))
}.
Arguments base {Inst} _.
Arguments output_model {Inst} _.
Arguments tool {Inst} _.
Arguments instances {Inst} _.

Definition Method (Inst A : Type) : Type := M (t Inst * World) A.

(** A method inherited from [BatchInferer], run on a structured instance. *)
Definition inherited {Inst A : Type} (m : BatchInferer.Method A) : Method Inst A :=
  fun s =>
    let self := fst s in
    match m (base self, snd s) with
    | (o, (b, w)) =>
        (o, ({| base := b; output_model := output_model self;
                tool := tool self; instances := instances self |}, w))
    end.

Section Methods.

Variable env : Env.
Context {Inst : Type}.

Definition _build_tool (output_model : OutputModel Inst) : pyval :=
  PDict [("name", PStr (om_name output_model));
         ("description",
          PStr (match om_doc output_model with
                | Some doc => if String.eqb doc "" then "please fill in the schema"
                              else doc
                | None => "please fill in the schema"
                end));
         ("input_schema", om_json_schema output_model)].

Definition init (output_model : OutputModel Inst) (model_name : pyval)
    (bucket_name region job_name role_arn : string) (time_out_duration_hours : Z)
  : M World (t Inst) :=
  b <- BatchInferer.init env model_name bucket_name region job_name role_arn
         time_out_duration_hours ;;
  ret {| base := b; output_model := output_model;
         tool := _build_tool output_model; instances := None |}.

(** [_add_tool_to_model_input] assigns both attributes of the object it
    is given and returns that object.  The two values do not depend on
    the object, so an object listed under several identifiers ends up as
    it would if each entry had its own copy. *)
Definition _add_tool_to_model_input (self : t Inst) (model_input : ModelInput)
  : ModelInput :=
  {| messages := messages model_input;
     anthropic_version := anthropic_version model_input;
     max_tokens := max_tokens model_input;
     system := system model_input;
     stop_sequences := stop_sequences model_input;
     temperature := temperature model_input;
     top_p := top_p model_input;
     top_k := top_k model_input;
     tools := PList [tool self];
     tool_choice := Some {| tc_type := "tool";
                            tc_name := Some (om_name (output_model self)) |} |}.

Definition prepare_requests (inputs : list (string * ModelInput))
  : Method Inst unit :=
  fun s =>
    let self := fst s in
    let with_tools :=
      List.map (fun entry => (fst entry, _add_tool_to_model_input self (snd entry)))
        inputs in
    inherited (BatchInferer.prepare_requests with_tools) s.

(** The override that refuses to recover without a schema. *)
Definition recover_details_from_job_arn (job_arn region : string)
  : M World (t Inst) :=
  raise TypeError.

Definition recover_structured_job (job_arn region : string)
    (output_model : OutputModel Inst) : M World (t Inst) :=
  response <- BatchInferer.check_for_existing_job env job_arn region ;;
  catch
    (params <- BatchInferer.recovered_parameters env response ;;
     let '(job_name, model_id, bucket_name, role_arn, requests) := params in
     sbi <- init output_model model_id bucket_name region job_name role_arn 24 ;;
     let b := BatchInferer.set_job_arn (Some job_arn) (base sbi) in
     let b := BatchInferer.set_requests (Some requests) b in
     status <- lift (Py.getitem response "status") ;;
     ret {| base := BatchInferer.set_job_status status b;
            output_model := StructuredBatchInferer.output_model sbi;
            tool := tool sbi;
            instances := instances sbi |})
    (fun _ => true)
    BatchInferer.recovery_handler.

End Methods.

End StructuredBatchInferer.

(** ** Sample data

    The values on which the properties below are exercised. *)

Definition end_turn_result : pyval :=
  PDict [("stop_reason", PStr "end_turn");
         ("content", PList [PDict [("type", PStr "text"); ("text", PStr "John is 30")]])].

Definition two_tool_calls_result : pyval :=
  PDict [("stop_reason", PStr "tool_use");
         ("content", PList [PDict [("type", PStr "tool_use"); ("input", john_30)];
                            PDict [("type", PStr "tool_use"); ("input", john_30)]])].

Definition text_block_result : pyval :=
  PDict [("stop_reason", PStr "tool_use");
         ("content", PList [PDict [("type", PStr "text"); ("text", PStr "John is 30")]])].

(** [s.rfind(c)], counting from [i]. *)
Fixpoint rfind_from (c : ascii) (s : string) (i : nat) : option nat :=
  match s with
  | EmptyString => None
  | String a s' =>
      match rfind_from c s' (S i) with
      | Some j => Some j
      | None => if Ascii.eqb a c then Some i else None
      end
  end.

Fixpoint all_dots (s : string) : bool :=
  match s with
  | EmptyString => true
  | String a s' => Ascii.eqb a "."%char && all_dots s'
  end.

(** [posixpath.splitext]: the extension starts at the last dot of the last
    component, leading dots of the component apart. *)
Definition posix_splitext (p : string) : string * string :=
  match rfind_from "."%char p 0 with
  | None => (p, "")
  | Some dot =>
      let start := match rfind_from "/"%char p 0 with
                   | Some sep => S sep
                   | None => O
                   end in
      if Nat.ltb dot start then (p, "")
      else if all_dots (String.substring start (dot - start) p) then (p, "")
      else (String.substring 0 dot p,
            String.substring dot (String.length p - dot) p)
  end.

(** A parser that knows the three shortest JSON documents. *)
Definition sample_json_loads (line : string) : Outcome pyval :=
  if String.eqb line "{}" then Return (PDict [])
  else if String.eqb line "[]" then Return (PList [])
  else if String.eqb line "null" then Return PNone
  else Raise JSONDecodeError.

Definition sample_job_arn : string :=
  "arn:aws:bedrock:eu-west-2:123456789012:model-invocation-job/x3ddw33feqwu".

Definition sample_role_arn : string :=
  "arn:aws:iam::123456789012:role/BedrockBatchRole".

(** The answer of [get_model_invocation_job] for the sample job. *)
Definition sample_job_details (status : string) : pyval :=
  PDict [("ResponseMetadata", PDict [("HTTPStatusCode", PInt 200)]);
         ("jobArn", PStr sample_job_arn);
         ("jobName", PStr "batch-job-2024-01-01");
         ("modelId", PStr "anthropic.claude-3-haiku-20240307-v1:0");
         ("roleArn", PStr sample_role_arn);
         ("inputDataConfig",
          PDict [("s3InputDataConfig",
                  PDict [("s3InputFormat", PStr "JSONL");
                         ("s3Uri", PStr "s3://my-inference-bucket/input/batch-job-2024-01-01.jsonl")])]);
         ("status", PStr status)].

(** Collaborators that accept every preflight check and report the sample
    job under the given status. *)
Definition sample_env (status : string) : Env := {|
  head_bucket_reply := fun _ => Return tt;
  get_bucket_location_reply :=
    fun _ => Return (PDict [("LocationConstraint", PStr "eu-west-2")]);
  get_role_reply := fun _ => Return tt;
  get_model_invocation_job_reply := fun _ _ => Return (sample_job_details status);
  s3_object := fun _ _ => None;
  AWS_PROFILE := Some "default";
  uuid4_prefix := "1a2b3c";
  json_loads_stripped := sample_json_loads;
  os_path_splitext := posix_splitext
|}.

Definition empty_world : World := {| calls := []; files := fun _ => None |}.

(** A world whose only file is the submission of the sample job. *)
Definition world_with_submission : World := {|
  calls := [];
  files := fun p => if String.eqb p "batch-job-2024-01-01.jsonl"
                    then Some ["{}"; "{}"] else None
|}.

(** The sample job as [create] leaves it, given a cached status. *)
Definition sample_job (status : pyval) : BatchInferer.t := {|
  BatchInferer.model_name := PStr "anthropic.claude-3-haiku-20240307-v1:0";
  BatchInferer.time_out_duration_hours := 24;
  BatchInferer.bucket_name := "my-inference-bucket";
  BatchInferer.bucket_uri := "s3://my-inference-bucket";
  BatchInferer.job_name := "batch-job-2024-01-01";
  BatchInferer.file_name := "batch-job-2024-01-01.jsonl";
  BatchInferer.output_file_name := None;
  BatchInferer.manifest_file_name := None;
  BatchInferer.role_arn := sample_role_arn;
  BatchInferer.region := "eu-west-2";
  BatchInferer.job_arn := Some sample_job_arn;
  BatchInferer.job_status := status;
  BatchInferer.results := None;
  BatchInferer.manifest := None;
  BatchInferer.requests := None
|}.

Definition sample_input : ModelInput := {|
  messages := PList [PDict [("role", PStr "user");
                            ("content", PStr "Give me a random name, occupation and age")]];
  anthropic_version := PStr "bedrock-2023-05-31";
  max_tokens := PInt 2000;
  system := PNone;
  stop_sequences := PNone;
  temperature := PInt 1;
  top_p := PNone;
  top_k := PInt 250;
  tools := PNone;
  tool_choice := None
|}.

Definition digit (d : nat) : ascii := Ascii.ascii_of_nat (48 + d).

(** The identifier of the [i]-th sample request: [i] on three digits. *)
Definition sample_id (i : nat) : string :=
  String (digit (i / 100)) (String (digit ((i / 10) mod 10))
    (String (digit (i mod 10)) EmptyString)).

Definition sample_inputs (n : nat) : list (string * ModelInput) :=
  List.map (fun i => (sample_id i, sample_input)) (List.seq 0 n).

(** A tool that a caller declared on its own request. *)
Definition calculator_tool : pyval :=
  PDict [("name", PStr "calculator");
         ("description", PStr "adds two numbers");
         ("input_schema", PDict [("type", PStr "object")])].

Definition input_with_calculator : ModelInput := {|
  messages := messages sample_input;
  anthropic_version := anthropic_version sample_input;
  max_tokens := max_tokens sample_input;
  system := PNone;
  stop_sequences := PNone;
  temperature := PNone;
  top_p := PNone;
  top_k := PNone;
  tools := PList [calculator_tool];
  tool_choice := None
|}.

(** A structured instance for [NameAgeModel], as its [__init__] leaves it. *)
Definition sample_structured_job : StructuredBatchInferer.t NameAge := {|
  StructuredBatchInferer.base := BatchInferer.set_job_arn None (sample_job PNone);
  StructuredBatchInferer.output_model := NameAgeModel;
  StructuredBatchInferer.tool := StructuredBatchInferer._build_tool NameAgeModel;
  StructuredBatchInferer.instances := None
|}.

(** The status queries among a list of calls. *)
Definition queries_in (issued : list Event) : nat :=
  status_queries {| calls := issued; files := fun _ => None |}.

(** The collaborators of [sample_env], with a status query answered by
    [reply]. *)
Definition env_answering (reply : list Event -> option string -> Outcome pyval) : Env := {|
  head_bucket_reply := fun _ => Return tt;
  get_bucket_location_reply :=
    fun _ => Return (PDict [("LocationConstraint", PStr "eu-west-2")]);
  get_role_reply := fun _ => Return tt;
  get_model_invocation_job_reply := reply;
  s3_object := fun _ _ => None;
  AWS_PROFILE := Some "default";
  uuid4_prefix := "1a2b3c";
  json_loads_stripped := sample_json_loads;
  os_path_splitext := posix_splitext
|}.

(** The sample job is [InProgress] for the first [polls] status queries and
    [Completed] from then on. *)
Definition completing_env (polls : nat) : Env :=
  env_answering
    (fun issued _ =>
       Return (sample_job_details
                 (if Nat.ltb (queries_in issued) polls then "InProgress"
                  else "Completed"))).

(** Whether a string holds a slash. *)
Fixpoint has_slash (s : string) : bool :=
  match s with
  | EmptyString => false
  | String c s' => Ascii.eqb c "/"%char || has_slash s'
  end.


(** Metadata that name no job. *)
Definition nameless_job_details : pyval :=
  PDict [("ResponseMetadata", PDict [("HTTPStatusCode", PInt 200)]);
         ("status", PStr "Completed")].

(** The collaborators of [sample_env], in a process without [AWS_PROFILE]. *)
Definition env_without_profile : Env := {|
  head_bucket_reply := fun _ => Return tt;
  get_bucket_location_reply :=
    fun _ => Return (PDict [("LocationConstraint", PStr "eu-west-2")]);
  get_role_reply := fun _ => Return tt;
  get_model_invocation_job_reply := fun _ _ => Return (sample_job_details "Completed");
  s3_object := fun _ _ => None;
  AWS_PROFILE := None;
  uuid4_prefix := "1a2b3c";
  json_loads_stripped := sample_json_loads;
  os_path_splitext := posix_splitext
|}.

(** The collaborators of [sample_env], the bucket being in [us-east-1]. *)
Definition env_us_east_1 : Env := {|
  head_bucket_reply := fun _ => Return tt;
  get_bucket_location_reply := fun _ => Return (PDict [("LocationConstraint", PNone)]);
  get_role_reply := fun _ => Return tt;
  get_model_invocation_job_reply := fun _ _ => Return (sample_job_details "Completed");
  s3_object := fun _ _ => None;
  AWS_PROFILE := Some "default";
  uuid4_prefix := "1a2b3c";
  json_loads_stripped := sample_json_loads;
  os_path_splitext := posix_splitext
|}.

(** The attributes of a request, [None] ones included, as [to_dict] reads
    them before it drops the [None] ones. *)
Definition attributes (self : ModelInput) : list (string * pyval) :=
  [("messages", messages self);
   ("anthropic_version", anthropic_version self);
   ("max_tokens", max_tokens self);
   ("system", system self);
   ("stop_sequences", stop_sequences self);
   ("temperature", temperature self);
   ("top_p", top_p self);
   ("top_k", top_k self);
   ("tools", tools self);
   ("tool_choice", match tool_choice self with
                   | Some tc => ToolChoice_dict tc
                   | None => PNone
                   end)].

(** The entries of a dict; nothing for any other value. *)
Definition entries (v : pyval) : list (string * pyval) :=
  match v with PDict d => d | _ => [] end.

(** A serializer for the three documents [sample_json_loads] knows. *)
Definition sample_json_dumps (v : pyval) : string :=
  match v with
  | PDict [] => "{}"
  | PList [] => "[]"
  | _ => "null"
  end.

(** [s] without one trailing line feed. *)
Fixpoint chomp (s : string) : string :=
  match s with
  | EmptyString => EmptyString
  | String c s' =>
      match s' with
      | EmptyString => if Ascii.eqb c (Ascii.ascii_of_nat 10) then EmptyString else s
      | _ => String c (chomp s')
      end
  end.

(** The collaborators of [sample_env], reading lines that end in a line
    feed. *)
Definition env_reading_lines : Env := {|
  head_bucket_reply := fun _ => Return tt;
  get_bucket_location_reply :=
    fun _ => Return (PDict [("LocationConstraint", PStr "eu-west-2")]);
  get_role_reply := fun _ => Return tt;
  get_model_invocation_job_reply := fun _ _ => Return (sample_job_details "Completed");
  s3_object := fun _ _ => None;
  AWS_PROFILE := Some "default";
  uuid4_prefix := "1a2b3c";
  json_loads_stripped := fun line => sample_json_loads (chomp line);
  os_path_splitext := posix_splitext
|}.

(** A batch service that accepts what it is sent: a created job gets the
    sample identifier. *)
Definition accepting_service (c : BatchInferer.Command) : Outcome pyval :=
  match c with
  | BatchInferer.CreateModelInvocationJob _ _ _ _ _ _ =>
      Return (PDict [("ResponseMetadata", PDict [("HTTPStatusCode", PInt 200)]);
                     ("jobArn", PStr sample_job_arn)])
  | BatchInferer.StopModelInvocationJob _ =>
      Return (PDict [("ResponseMetadata", PDict [("HTTPStatusCode", PInt 200)])])
  | BatchInferer.UploadFile _ _ _ => Return PNone
  end.

(** A batch service that answers every command with the given status code. *)
Definition service_answering (code : Z) (c : BatchInferer.Command) : Outcome pyval :=
  Return (PDict [("ResponseMetadata", PDict [("HTTPStatusCode", PInt code)])]).

Definition empty_session : BatchInferer.Session :=
  {| BatchInferer.world := empty_world; BatchInferer.commands := [] |}.

(** The sample job before [create]: no identifier, no status, and the given
    requests. *)
Definition unsubmitted_job (requests : option (list pyval)) : BatchInferer.t :=
  BatchInferer.set_requests requests (BatchInferer.set_job_arn None (sample_job PNone)).

(** The sample job with a batch of one request already stored, written out
    attribute by attribute. *)
Definition job_with_requests : BatchInferer.t := {|
  BatchInferer.model_name := PStr "anthropic.claude-3-haiku-20240307-v1:0";
  BatchInferer.time_out_duration_hours := 24;
  BatchInferer.bucket_name := "my-inference-bucket";
  BatchInferer.bucket_uri := "s3://my-inference-bucket";
  BatchInferer.job_name := "batch-job-2024-01-01";
  BatchInferer.file_name := "batch-job-2024-01-01.jsonl";
  BatchInferer.output_file_name := None;
  BatchInferer.manifest_file_name := None;
  BatchInferer.role_arn := sample_role_arn;
  BatchInferer.region := "eu-west-2";
  BatchInferer.job_arn := Some sample_job_arn;
  BatchInferer.job_status := PStr "InProgress";
  BatchInferer.results := None;
  BatchInferer.manifest := None;
  BatchInferer.requests := Some [PDict [("recordId", PStr "previous")]]
|}.

(** The double quote, and the JSON line of a record that holds its
    identifier only. *)
Definition double_quote : string := String (Ascii.ascii_of_nat 34) EmptyString.

Definition record_line (id : string) : string :=
  "{" ++ double_quote ++ "recordId" ++ double_quote ++ ": "
      ++ double_quote ++ id ++ double_quote ++ "}".

(** A parser that knows the lines of the records [000] and [001], beside
    the documents of [sample_json_loads]. *)
Definition record_json_loads (line : string) : Outcome pyval :=
  if String.eqb line (record_line "000") then Return (PDict [("recordId", PStr "000")])
  else if String.eqb line (record_line "001") then Return (PDict [("recordId", PStr "001")])
  else sample_json_loads line.

(** The collaborators of [sample_env] for a completed job, reading such
    lines. *)
Definition env_with_records : Env := {|
  head_bucket_reply := fun _ => Return tt;
  get_bucket_location_reply :=
    fun _ => Return (PDict [("LocationConstraint", PStr "eu-west-2")]);
  get_role_reply := fun _ => Return tt;
  get_model_invocation_job_reply := fun _ _ => Return (sample_job_details "Completed");
  s3_object := fun _ _ => None;
  AWS_PROFILE := Some "default";
  uuid4_prefix := "1a2b3c";
  json_loads_stripped := record_json_loads;
  os_path_splitext := posix_splitext
|}.

(** A world whose only file is the submission of the sample job, with the
    records [000] and [001] in this order. *)
Definition world_with_records : World := {|
  calls := [];
  files := fun p => if String.eqb p "batch-job-2024-01-01.jsonl"
                    then Some [record_line "000"; record_line "001"] else None
|}.

(** The instance [__init__] builds for the sample job, before recovery
    fills in the identifier, the requests and the status. *)
Definition built_sample_job : BatchInferer.t := {|
  BatchInferer.model_name := PStr "anthropic.claude-3-haiku-20240307-v1:0";
  BatchInferer.time_out_duration_hours := 24;
  BatchInferer.bucket_name := "my-inference-bucket";
  BatchInferer.bucket_uri := "s3://my-inference-bucket";
  BatchInferer.job_name := "batch-job-2024-01-01";
  BatchInferer.file_name := "batch-job-2024-01-01.jsonl";
  BatchInferer.output_file_name := None;
  BatchInferer.manifest_file_name := None;
  BatchInferer.role_arn := sample_role_arn;
  BatchInferer.region := "eu-west-2";
  BatchInferer.job_arn := None;
  BatchInferer.job_status := PNone;
  BatchInferer.results := None;
  BatchInferer.manifest := None;
  BatchInferer.requests := None
|}.

(** * Properties *)

(** ** Output validation *)

Section ValidateResult.

Context {Inst : Type} (om : OutputModel Inst).

Lemma validate_result_stop_reason (result stop_reason : pyval) :
  Py.getitem result "stop_reason" = Return stop_reason ->
  Py.eq_str stop_reason "tool_use" = false ->
  validate_result om result = Return None.
Proof.
  intros Hsr Hne. unfold validate_result.
  rewrite Hsr. cbn [obind]. rewrite Hne. reflexivity.
Qed.

Lemma validate_result_content_len (result stop_reason content : pyval) (n : nat) :
  Py.getitem result "stop_reason" = Return stop_reason ->
  Py.getitem result "content" = Return content ->
  Py.len content = Return n ->
  n <> 1 ->
  validate_result om result = Return None.
Proof.
  intros Hsr Hc Hlen Hn. unfold validate_result.
  rewrite Hsr. cbn [obind].
  destruct (Py.eq_str stop_reason "tool_use"); cbn [negb]; [|reflexivity].
  rewrite Hc. cbn [obind]. rewrite Hlen. cbn [obind].
  apply Nat.eqb_neq in Hn. rewrite Hn. reflexivity.
Qed.

(** The handler of [validate_result] takes [TypeError] and nothing else:
    any other exception of the schema's constructor leaves the function. *)
Lemma validate_result_constructor_raises (payload : pyval) (e : exn) :
  call_with_kwargs om payload = Raise e ->
  validate_result om (tool_use_result payload)
  = if is_TypeError e then Return None else Raise e.
Proof.
  intros Hcall. unfold validate_result, tool_use_result. cbn.
  rewrite Hcall. cbn. reflexivity.
Qed.

Lemma validate_result_constructor_returns (payload : pyval) (output : Inst) :
  call_with_kwargs om payload = Return output ->
  validate_result om (tool_use_result payload) = Return (Some output).
Proof.
  intros Hcall. unfold validate_result, tool_use_result. cbn.
  rewrite Hcall. reflexivity.
Qed.

End ValidateResult.

(** The docstring example: the payload of John, 30, is validated. *)
Example validate_result_john_30 :
  validate_result NameAgeModel (tool_use_result john_30)
  = Return (Some {| na_name := "John"; na_age := 30 |}).
Proof. reflexivity. Qed.

(** C1 (the code departs from the claim).  A tool-call payload without
    [age], validated against [NameAgeModel], does not yield an absent
    result: pydantic's [ValidationError] is not a [TypeError], the handler of
    [validate_result] lets it through and the call raises. *)
Theorem validate_result_missing_field_raises :
  validate_result NameAgeModel (tool_use_result john_without_age)
  = Raise PydanticValidationError.
Proof. reflexivity. Qed.

(** One such record ends the comprehension of [load_results]: no list of
    instances is produced, even for the records that validate. *)
Example instances_of_aborts_on_missing_field :
  instances_of NameAgeModel
    [PDict [("recordId", PStr "000"); ("modelOutput", tool_use_result john_30)];
     PDict [("recordId", PStr "001"); ("modelOutput", tool_use_result john_without_age)]]
  = Raise PydanticValidationError.
Proof. reflexivity. Qed.

(** C9.  A raw result whose stop reason is not ["tool_use"] is validated to
    [None]; so is a raw result whose content holds more than one block. *)
Theorem validate_result_absent_unless_single_tool_call
    {Inst : Type} (om : OutputModel Inst) (result stop_reason : pyval) :
  Py.getitem result "stop_reason" = Return stop_reason ->
  (Py.eq_str stop_reason "tool_use" = false ->
   validate_result om result = Return None)
  /\ (forall blocks : list pyval,
        Py.getitem result "content" = Return (PList blocks) ->
        1 < List.length blocks ->
        validate_result om result = Return None).
Proof.
  intros Hsr. split.
  - intros Hne. exact (validate_result_stop_reason om result stop_reason Hsr Hne).
  - intros blocks Hc Hlen.
    apply (validate_result_content_len om result stop_reason (PList blocks)
             (List.length blocks) Hsr Hc eq_refl).
    lia.
Qed.

Lemma validate_result_absent_unless_single_tool_call_witness :
  validate_result NameAgeModel end_turn_result = Return None
  /\ validate_result NameAgeModel two_tool_calls_result = Return None.
Proof.
  split.
  - apply (proj1 (validate_result_absent_unless_single_tool_call
                    NameAgeModel end_turn_result (PStr "end_turn") eq_refl)).
    reflexivity.
  - apply (proj2 (validate_result_absent_unless_single_tool_call
                    NameAgeModel two_tool_calls_result (PStr "tool_use") eq_refl)
             [PDict [("type", PStr "tool_use"); ("input", john_30)];
              PDict [("type", PStr "tool_use"); ("input", john_30)]]).
    + reflexivity.
    + simpl. lia.
Defined.

(** C10.  With stop reason ["tool_use"] and exactly one content block whose
    type is not ["tool_use"], no branch of [validate_result] returns or
    raises: the function falls through and the result is [None]. *)
Theorem validate_result_single_block_not_tool_use
    {Inst : Type} (om : OutputModel Inst) (result stop_reason block ty : pyval) :
  Py.getitem result "stop_reason" = Return stop_reason ->
  Py.eq_str stop_reason "tool_use" = true ->
  Py.getitem result "content" = Return (PList [block]) ->
  Py.getitem block "type" = Return ty ->
  Py.eq_str ty "tool_use" = false ->
  validate_result om result = Return None.
Proof.
  intros Hsr Heq Hc Hty Hne. unfold validate_result.
  rewrite Hsr. cbn [obind]. rewrite Heq. cbn [negb].
  rewrite Hc. cbn. rewrite Hty. cbn [obind]. rewrite Hne. reflexivity.
Qed.

Lemma validate_result_single_block_not_tool_use_witness :
  validate_result NameAgeModel text_block_result = Return None.
Proof.
  apply (validate_result_single_block_not_tool_use NameAgeModel text_block_result
           (PStr "tool_use")
           (PDict [("type", PStr "text"); ("text", PStr "John is 30")])
           (PStr "text")); reflexivity.
Defined.

(** ** Job status *)

Section CheckComplete.

Variable env : Env.

Lemma check_complete_cached (self : BatchInferer.t) (w : World) :
  Py.in_strs (BatchInferer.job_status self) VALID_FINISHED_STATUSES = true ->
  BatchInferer.check_complete env (self, w)
  = (Return (BatchInferer.job_status self), (self, w)).
Proof.
  intros Hfin. unfold BatchInferer.check_complete, bind, BatchInferer.self_.
  cbn [fst snd]. rewrite Hfin. reflexivity.
Qed.

Lemma check_complete_query (self : BatchInferer.t) (w : World)
    (response status : pyval) :
  Py.in_strs (BatchInferer.job_status self) VALID_FINISHED_STATUSES = false ->
  get_model_invocation_job_reply env (calls w) (BatchInferer.job_arn self)
  = Return response ->
  Py.getitem response "status" = Return status ->
  BatchInferer.check_complete env (self, w)
  = (Return (if Py.in_strs status VALID_FINISHED_STATUSES then status else PNone),
     (BatchInferer.set_job_status status self,
      record_call (GetModelInvocationJob (BatchInferer.job_arn self)) w)).
Proof.
  intros Hrun Hreply Hstatus.
  unfold BatchInferer.check_complete, bind, BatchInferer.self_,
    BatchInferer.in_world, get_model_invocation_job, lift, BatchInferer.update, ret.
  cbn [fst snd]. rewrite Hrun. cbn [negb fst snd].
  rewrite Hreply, Hstatus. cbn [fst snd BatchInferer.set_job_status BatchInferer.job_status].
  destruct (Py.in_strs status VALID_FINISHED_STATUSES); reflexivity.
Qed.

End CheckComplete.

(** C2.  Once the cached status is one of [VALID_FINISHED_STATUSES], any
    number of calls of [check_complete] in a row return that status each
    time and leave the instance and the world as they were: no call reaches
    the batch service. *)
Theorem check_complete_terminal_idempotent
    (env : Env) (self : BatchInferer.t) (w : World) (n : nat) :
  Py.in_strs (BatchInferer.job_status self) VALID_FINISHED_STATUSES = true ->
  repeatM n (BatchInferer.check_complete env) (self, w)
  = (Return (List.repeat (BatchInferer.job_status self) n), (self, w))
  /\ status_queries (snd (snd (repeatM n (BatchInferer.check_complete env) (self, w))))
     = status_queries w.
Proof.
  intros Hfin.
  assert (Hrun : repeatM n (BatchInferer.check_complete env) (self, w)
                 = (Return (List.repeat (BatchInferer.job_status self) n), (self, w))).
  { induction n as [|n IH].
    - reflexivity.
    - cbn [repeatM List.repeat]. unfold bind at 1.
      rewrite (check_complete_cached env self w Hfin).
      unfold bind at 1. rewrite IH. reflexivity. }
  split; [exact Hrun|]. rewrite Hrun. reflexivity.
Qed.

Lemma check_complete_terminal_idempotent_witness :
  repeatM 3 (BatchInferer.check_complete (sample_env "InProgress"))
    (sample_job (PStr "Completed"), empty_world)
  = (Return [PStr "Completed"; PStr "Completed"; PStr "Completed"],
     (sample_job (PStr "Completed"), empty_world))
  /\ status_queries
       (snd (snd (repeatM 3 (BatchInferer.check_complete (sample_env "InProgress"))
                    (sample_job (PStr "Completed"), empty_world))))
     = status_queries empty_world.
Proof.
  apply (check_complete_terminal_idempotent (sample_env "InProgress")
           (sample_job (PStr "Completed")) empty_world 3).
  reflexivity.
Defined.

(** C4 as stated does not hold: a fresh job, not yet queried, asks the batch
    service, is told [InProgress], returns [None], and its cached status is
    no longer what it was before the call. *)
Lemma check_complete_in_progress_changes_cached_status :
  let before := sample_job PNone in
  let after := BatchInferer.check_complete (sample_env "InProgress") (before, empty_world) in
  fst after = Return PNone
  /\ BatchInferer.job_status (fst (snd after)) = PStr "InProgress"
  /\ BatchInferer.job_status (fst (snd after)) <> BatchInferer.job_status before.
Proof.
  cbv zeta. split; [reflexivity|]. split; [reflexivity|]. discriminate.
Qed.

(** C4, amended.  When [check_complete] queries the batch service and the
    status it is given is not a finished one, it returns [None] and stores
    that status in [job_status]; no other attribute changes, and the one
    effect on the world is the query. *)
Theorem check_complete_not_finished_caches_status
    (env : Env) (self : BatchInferer.t) (w : World) (response status : pyval) :
  Py.in_strs (BatchInferer.job_status self) VALID_FINISHED_STATUSES = false ->
  get_model_invocation_job_reply env (calls w) (BatchInferer.job_arn self)
  = Return response ->
  Py.getitem response "status" = Return status ->
  Py.in_strs status VALID_FINISHED_STATUSES = false ->
  BatchInferer.check_complete env (self, w)
  = (Return PNone,
     (BatchInferer.set_job_status status self,
      record_call (GetModelInvocationJob (BatchInferer.job_arn self)) w)).
Proof.
  intros Hrun Hreply Hstatus Hnot.
  rewrite (check_complete_query env self w response status Hrun Hreply Hstatus).
  rewrite Hnot. reflexivity.
Qed.

Lemma check_complete_not_finished_caches_status_witness :
  BatchInferer.check_complete (sample_env "InProgress") (sample_job PNone, empty_world)
  = (Return PNone,
     (sample_job (PStr "InProgress"),
      record_call (GetModelInvocationJob (Some sample_job_arn)) empty_world)).
Proof.
  apply (check_complete_not_finished_caches_status (sample_env "InProgress")
           (sample_job PNone) empty_world (sample_job_details "InProgress")
           (PStr "InProgress")); reflexivity.
Defined.

(** ** Download *)

(** C3 (the code departs from the claim).  Called while the job is not
    finished, [download_results] raises nothing: it returns, having queried
    the status once, downloaded nothing and named no result file. *)
Theorem download_results_before_finished_returns
    (env : Env) (self : BatchInferer.t) (w : World) (response status : pyval) :
  Py.in_strs (BatchInferer.job_status self) VALID_FINISHED_STATUSES = false ->
  get_model_invocation_job_reply env (calls w) (BatchInferer.job_arn self)
  = Return response ->
  Py.getitem response "status" = Return status ->
  Py.in_strs status VALID_FINISHED_STATUSES = false ->
  BatchInferer.download_results env (self, w)
  = (Return tt,
     (BatchInferer.set_job_status status self,
      record_call (GetModelInvocationJob (BatchInferer.job_arn self)) w)).
Proof.
  intros Hrun Hreply Hstatus Hnot.
  unfold BatchInferer.download_results. unfold bind at 1.
  rewrite (check_complete_query env self w response status Hrun Hreply Hstatus).
  rewrite Hnot. reflexivity.
Qed.

Lemma download_results_before_finished_returns_witness :
  BatchInferer.download_results (sample_env "InProgress") (sample_job PNone, empty_world)
  = (Return tt,
     (sample_job (PStr "InProgress"),
      record_call (GetModelInvocationJob (Some sample_job_arn)) empty_world)).
Proof.
  apply (download_results_before_finished_returns (sample_env "InProgress")
           (sample_job PNone) empty_world (sample_job_details "InProgress")
           (PStr "InProgress")); reflexivity.
Defined.

(** ** Requests *)

Lemma prepare_requests_too_few
    (self : BatchInferer.t) (w : World) (inputs : list (string * ModelInput)) :
  List.length inputs < 100 ->
  BatchInferer.prepare_requests inputs (self, w) = (Raise ValueError, (self, w)).
Proof.
  intros Hlt. unfold BatchInferer.prepare_requests.
  apply Nat.ltb_lt in Hlt. rewrite Hlt. reflexivity.
Qed.

Lemma prepare_requests_enough
    (self : BatchInferer.t) (w : World) (inputs : list (string * ModelInput)) :
  100 <= List.length inputs ->
  BatchInferer.prepare_requests inputs (self, w)
  = (Return tt,
     (BatchInferer.set_requests (Some (List.map request_record inputs)) self, w)).
Proof.
  intros Hge. unfold BatchInferer.prepare_requests.
  apply Nat.ltb_ge in Hge. rewrite Hge. reflexivity.
Qed.

(** C5.  With fewer than 100 entries [prepare_requests] raises [ValueError]
    and leaves the instance, its stored requests included, and the world as
    they were.  With 100 entries or more it returns with the world as it
    was, and the requests stored on the instance afterwards are one record
    per entry, [recordId] and [modelInput], in the order of the mapping;
    every other attribute keeps its value. *)
Theorem prepare_requests_minimum_batch_size
    (self : BatchInferer.t) (w : World) (inputs : list (string * ModelInput)) :
  (List.length inputs < 100 ->
   BatchInferer.prepare_requests inputs (self, w) = (Raise ValueError, (self, w))
   /\ BatchInferer.requests
        (fst (snd (BatchInferer.prepare_requests inputs (self, w))))
      = BatchInferer.requests self)
  /\ (100 <= List.length inputs ->
      exists (after : BatchInferer.t) (stored : list pyval),
        BatchInferer.prepare_requests inputs (self, w) = (Return tt, (after, w))
        /\ after = BatchInferer.set_requests (Some (List.map request_record inputs)) self
        /\ BatchInferer.requests after = Some stored
        /\ List.length stored = List.length inputs
        /\ (forall (i : nat) (id : string) (model_input : ModelInput),
              List.nth_error inputs i = Some (id, model_input) ->
              List.nth_error stored i
              = Some (PDict [("recordId", PStr id);
                             ("modelInput", to_dict model_input)]))
        /\ BatchInferer.model_name after = BatchInferer.model_name self
        /\ BatchInferer.time_out_duration_hours after
           = BatchInferer.time_out_duration_hours self
        /\ BatchInferer.bucket_name after = BatchInferer.bucket_name self
        /\ BatchInferer.bucket_uri after = BatchInferer.bucket_uri self
        /\ BatchInferer.job_name after = BatchInferer.job_name self
        /\ BatchInferer.file_name after = BatchInferer.file_name self
        /\ BatchInferer.output_file_name after = BatchInferer.output_file_name self
        /\ BatchInferer.manifest_file_name after = BatchInferer.manifest_file_name self
        /\ BatchInferer.role_arn after = BatchInferer.role_arn self
        /\ BatchInferer.region after = BatchInferer.region self
        /\ BatchInferer.job_arn after = BatchInferer.job_arn self
        /\ BatchInferer.job_status after = BatchInferer.job_status self
        /\ BatchInferer.results after = BatchInferer.results self
        /\ BatchInferer.manifest after = BatchInferer.manifest self).
Proof.
  split.
  - intros Hlt. rewrite (prepare_requests_too_few self w inputs Hlt).
    split; reflexivity.
  - intros Hge.
    exists (BatchInferer.set_requests (Some (List.map request_record inputs)) self),
           (List.map request_record inputs).
    split; [apply prepare_requests_enough; exact Hge|].
    split; [reflexivity|].
    split; [reflexivity|].
    split; [apply List.length_map|].
    split.
    + intros i id model_input Hnth.
      rewrite List.nth_error_map, Hnth. reflexivity.
    + cbn. repeat split; reflexivity.
Qed.

Lemma prepare_requests_minimum_batch_size_witness :
  (BatchInferer.prepare_requests (sample_inputs 99) (job_with_requests, empty_world)
   = (Raise ValueError, (job_with_requests, empty_world))
   /\ BatchInferer.requests
        (fst (snd (BatchInferer.prepare_requests (sample_inputs 99)
                     (job_with_requests, empty_world))))
      = Some [PDict [("recordId", PStr "previous")]])
  /\ exists (after : BatchInferer.t) (stored : list pyval),
       BatchInferer.prepare_requests (sample_inputs 100) (job_with_requests, empty_world)
       = (Return tt, (after, empty_world))
       /\ BatchInferer.requests after = Some stored
       /\ List.length stored = 100
       /\ List.nth_error stored 0
          = Some (PDict
                    [("recordId", PStr "000");
                     ("modelInput",
                      PDict [("messages",
                              PList [PDict [("role", PStr "user");
                                            ("content",
                                             PStr "Give me a random name, occupation and age")]]);
                             ("anthropic_version", PStr "bedrock-2023-05-31");
                             ("max_tokens", PInt 2000);
                             ("temperature", PInt 1);
                             ("top_k", PInt 250)])])
       /\ List.nth_error stored 99
          = Some (PDict [("recordId", PStr "099"); ("modelInput", to_dict sample_input)])
       /\ BatchInferer.job_status after = PStr "InProgress".
Proof.
  split.
  - apply (proj1 (prepare_requests_minimum_batch_size
                    job_with_requests empty_world (sample_inputs 99))).
    vm_compute. lia.
  - destruct (proj2 (prepare_requests_minimum_batch_size
                       job_with_requests empty_world (sample_inputs 100)))
      as (after & stored & Hrun & _ & Hreq & Hlen & Hnth & Hrest).
    + vm_compute. lia.
    + exists after, stored.
      split; [exact Hrun|]. split; [exact Hreq|]. split; [exact Hlen|].
      split; [exact (Hnth 0 "000" sample_input eq_refl)|].
      split; [exact (Hnth 99 "099" sample_input eq_refl)|].
      destruct Hrest as (_ & _ & _ & _ & _ & _ & _ & _ & _ & _ & _ & Hstatus & _).
      exact Hstatus.
Defined.

(** ** Recovery *)

(** What [__init__] returns when its three checks pass. *)
Lemma init_attributes (env : Env) (model_name : pyval)
    (bucket_name region job_name role_arn : string) (hours : Z)
    (w w' : World) (b : BatchInferer.t) :
  BatchInferer.init env model_name bucket_name region job_name role_arn hours w
  = (Return b, w') ->
  BatchInferer.model_name b = model_name
  /\ BatchInferer.job_name b
     = (if String.eqb job_name "" then "batch_inference_" ++ uuid4_prefix env
        else job_name)
  /\ BatchInferer.file_name b = job_name ++ ".jsonl"
  /\ BatchInferer.bucket_name b = bucket_name
  /\ BatchInferer.role_arn b = role_arn
  /\ BatchInferer.job_arn b = None
  /\ BatchInferer.job_status b = PNone
  /\ BatchInferer.requests b = None.
Proof.
  unfold BatchInferer.init, bind, ret.
  destruct (BatchInferer._check_bucket env bucket_name region w) as [[u1|e1] w1];
    [|discriminate].
  destruct (BatchInferer.check_for_profile env w1) as [[u2|e2] w2]; [|discriminate].
  destruct (BatchInferer._check_arn env role_arn w2) as [[u3|e3] w3]; [|discriminate].
  intros H. injection H as Hb Hw. subst b. cbn. repeat split; reflexivity.
Qed.

Lemma string_eqb_empty_false (s : string) : s <> "" -> String.eqb s "" = false.
Proof. intros Hne. apply String.eqb_neq. exact Hne. Qed.

Lemma loads_lines_parses (env : Env) (lines : list string) (records : list pyval) :
  List.Forall2 (fun line record => json_loads_stripped env line = Return record)
    lines records ->
  loads_lines env lines = Return records.
Proof.
  induction 1 as [|line record lines records Hline _ IH]; [reflexivity|].
  cbn [loads_lines]. rewrite Hline. cbn [obind]. rewrite IH. reflexivity.
Qed.

(** C7.  The job metadata of the batch service names a job, a model, a
    submission in a bucket, a role and a status; the submission file of that
    job is on disk and [json.loads] turns each of its lines into a record;
    building an instance with these parameters succeeds.  Then
    [recover_details_from_job_arn] returns an instance whose job name,
    model, identifier and status are those of the metadata and whose
    requests are the records of the lines of the file, one per line, in the
    order of the file. *)
Theorem recover_details_round_trip
    (env : Env) (w w' : World) (job_arn region : string)
    (response metadata http_status input_data_config s3_input_data_config : pyval)
    (job_name s3_uri bucket_name role_arn : string) (model_id status : pyval)
    (lines : list string) (records : list pyval) (built : BatchInferer.t) :
  startswith job_arn "arn:aws:bedrock:" = true ->
  get_model_invocation_job_reply env (calls w) (Some job_arn) = Return response ->
  Py.getitem response "ResponseMetadata" = Return metadata ->
  Py.getitem metadata "HTTPStatusCode" = Return http_status ->
  Py.eq_int http_status 200 = true ->
  Py.getitem response "jobName" = Return (PStr job_name) ->
  job_name <> "" ->
  Py.getitem response "modelId" = Return model_id ->
  Py.getitem response "inputDataConfig" = Return input_data_config ->
  Py.getitem input_data_config "s3InputDataConfig" = Return s3_input_data_config ->
  Py.getitem s3_input_data_config "s3Uri" = Return (PStr s3_uri) ->
  third_piece (split_slash s3_uri) = Return bucket_name ->
  Py.getitem response "roleArn" = Return (PStr role_arn) ->
  Py.getitem response "status" = Return status ->
  files w (job_name ++ ".jsonl") = Some lines ->
  List.Forall2 (fun line record => json_loads_stripped env line = Return record)
    lines records ->
  BatchInferer.init env model_id bucket_name region job_name role_arn 24
    (record_call (GetModelInvocationJob (Some job_arn)) w)
  = (Return built, w') ->
  exists bi : BatchInferer.t,
    BatchInferer.recover_details_from_job_arn env job_arn region w = (Return bi, w')
    /\ BatchInferer.job_name bi = job_name
    /\ BatchInferer.model_name bi = model_id
    /\ BatchInferer.job_arn bi = Some job_arn
    /\ BatchInferer.job_status bi = status
    /\ BatchInferer.requests bi = Some records.
Proof.
  intros Harn Hreply Hmeta Hhttp H200 Hname Hne Hmodel Hidc Hs3 Huri Hbucket
    Hrole Hstatus Hfile Hlines Hinit.
  pose proof (loads_lines_parses env lines records Hlines) as Hparse.
  destruct (init_attributes env model_id bucket_name region job_name role_arn 24
              _ w' built Hinit)
    as (Hbm & Hbn & _ & _ & _ & _ & _ & _).
  rewrite (string_eqb_empty_false job_name Hne) in Hbn.
  exists (BatchInferer.set_job_status status
            (BatchInferer.set_requests (Some records)
               (BatchInferer.set_job_arn (Some job_arn) built))).
  split; [|cbn; repeat split; assumption].
  unfold BatchInferer.recover_details_from_job_arn.
  unfold bind at 1.
  assert (Hcheck : BatchInferer.check_for_existing_job env job_arn region w
                   = (Return response,
                      record_call (GetModelInvocationJob (Some job_arn)) w)).
  { unfold BatchInferer.check_for_existing_job. rewrite Harn. cbn [negb].
    unfold bind, catch, get_model_invocation_job, lift, ret.
    rewrite Hreply, Hmeta, Hhttp, H200. reflexivity. }
  rewrite Hcheck.
  assert (Hparams : BatchInferer.recovered_parameters env response
                      (record_call (GetModelInvocationJob (Some job_arn)) w)
                    = (Return (job_name, model_id, bucket_name, role_arn, records),
                       record_call (GetModelInvocationJob (Some job_arn)) w)).
  { unfold BatchInferer.recovered_parameters, bind, lift, path_exists, _read_jsonl, ret.
    rewrite Hname, Hmodel, Hidc, Hs3, Huri. cbn [Py.str_receiver].
    rewrite Hbucket, Hrole. cbn [Py.as_str]. unfold record_call. cbn [files].
    rewrite Hfile. cbn [negb files]. rewrite Hfile, Hparse. reflexivity. }
  unfold catch, bind. rewrite Hparams, Hinit.
  unfold lift. rewrite Hstatus. reflexivity.
Qed.

Lemma recover_details_round_trip_witness :
  exists bi : BatchInferer.t,
    BatchInferer.recover_details_from_job_arn env_with_records
      sample_job_arn "eu-west-2" world_with_records
    = (Return bi,
       {| calls := [GetRole "BedrockBatchRole";
                    GetBucketLocation "my-inference-bucket";
                    HeadBucket "my-inference-bucket";
                    GetModelInvocationJob (Some sample_job_arn)];
          files := files world_with_records |})
    /\ BatchInferer.job_name bi = "batch-job-2024-01-01"
    /\ BatchInferer.model_name bi = PStr "anthropic.claude-3-haiku-20240307-v1:0"
    /\ BatchInferer.job_arn bi = Some sample_job_arn
    /\ BatchInferer.job_status bi = PStr "Completed"
    /\ BatchInferer.requests bi
       = Some [PDict [("recordId", PStr "000")]; PDict [("recordId", PStr "001")]].
Proof.
  apply (recover_details_round_trip env_with_records world_with_records
           _ sample_job_arn "eu-west-2"
           (sample_job_details "Completed")
           (PDict [("HTTPStatusCode", PInt 200)]) (PInt 200)
           (PDict [("s3InputDataConfig",
                    PDict [("s3InputFormat", PStr "JSONL");
                           ("s3Uri", PStr "s3://my-inference-bucket/input/batch-job-2024-01-01.jsonl")])])
           (PDict [("s3InputFormat", PStr "JSONL");
                   ("s3Uri", PStr "s3://my-inference-bucket/input/batch-job-2024-01-01.jsonl")])
           "batch-job-2024-01-01"
           "s3://my-inference-bucket/input/batch-job-2024-01-01.jsonl"
           "my-inference-bucket" sample_role_arn
           (PStr "anthropic.claude-3-haiku-20240307-v1:0") (PStr "Completed")
           [record_line "000"; record_line "001"]
           [PDict [("recordId", PStr "000")]; PDict [("recordId", PStr "001")]]
           built_sample_job);
    try reflexivity.
  - discriminate.
  - repeat constructor.
Defined.

(** C8.  The recovery entry point without a schema, called on the
    structured class, raises [TypeError] whatever it is given, and does so
    before it reaches any collaborator: no instance comes out of it. *)
Theorem structured_recover_details_raises
    (Inst : Type) (job_arn region : string) (w : World) :
  StructuredBatchInferer.recover_details_from_job_arn (Inst := Inst) job_arn region w
  = (Raise TypeError, w).
Proof. reflexivity. Qed.

(** With the schema, recovery of the same job does return an instance. *)
Example recover_structured_job_sample :
  exists sbi : StructuredBatchInferer.t NameAge,
    fst (StructuredBatchInferer.recover_structured_job (sample_env "Completed")
           sample_job_arn "eu-west-2" NameAgeModel world_with_submission)
    = Return sbi
    /\ StructuredBatchInferer.tool sbi = StructuredBatchInferer._build_tool NameAgeModel.
Proof. eexists. split; reflexivity. Qed.

(** ** Tool schema *)

Lemma lookup_filter_kept (p : string * pyval -> bool) (k : string) (v : pyval)
    (d : list (string * pyval)) :
  Py.lookup k d = Some v ->
  p (k, v) = true ->
  Py.lookup k (List.filter p d) = Some v.
Proof.
  induction d as [|[k' v'] d IH]; intros Hlook Hp.
  - discriminate.
  - cbn [Py.lookup] in Hlook. cbn [List.filter].
    destruct (String.eqb k k') eqn:Hk.
    + apply String.eqb_eq in Hk. subst k'. injection Hlook as Hv. subst v'.
      rewrite Hp. cbn [Py.lookup]. rewrite String.eqb_refl. reflexivity.
    + destruct (p (k', v')).
      * cbn [Py.lookup]. rewrite Hk. apply IH; assumption.
      * apply IH; assumption.
Qed.

Section AddTool.

Context {Inst : Type} (self : StructuredBatchInferer.t Inst).

(** The two attributes the adapter assigns; the other eight are kept. *)
Lemma add_tool_attributes (model_input : ModelInput) :
  let with_tool := StructuredBatchInferer._add_tool_to_model_input self model_input in
  tools with_tool = PList [StructuredBatchInferer.tool self]
  /\ tool_choice with_tool
     = Some {| tc_type := "tool";
               tc_name := Some (om_name (StructuredBatchInferer.output_model self)) |}
  /\ messages with_tool = messages model_input
  /\ anthropic_version with_tool = anthropic_version model_input
  /\ max_tokens with_tool = max_tokens model_input
  /\ system with_tool = system model_input
  /\ stop_sequences with_tool = stop_sequences model_input
  /\ temperature with_tool = temperature model_input
  /\ top_p with_tool = top_p model_input
  /\ top_k with_tool = top_k model_input.
Proof. cbv zeta. repeat split; reflexivity. Qed.

Lemma add_tool_idempotent (model_input : ModelInput) :
  StructuredBatchInferer._add_tool_to_model_input self
    (StructuredBatchInferer._add_tool_to_model_input self model_input)
  = StructuredBatchInferer._add_tool_to_model_input self model_input.
Proof. reflexivity. Qed.

(** What the request sent to the service says about tools. *)
Lemma to_dict_add_tool (model_input : ModelInput) :
  let sent := to_dict (StructuredBatchInferer._add_tool_to_model_input self model_input) in
  Py.getitem sent "tools" = Return (PList [StructuredBatchInferer.tool self])
  /\ Py.getitem sent "tool_choice"
     = Return (PDict [("type", PStr "tool");
                      ("name", PStr (om_name (StructuredBatchInferer.output_model self)))]).
Proof.
  cbv zeta. unfold to_dict, Py.getitem. split.
  - erewrite lookup_filter_kept; [reflexivity| |reflexivity]. reflexivity.
  - erewrite lookup_filter_kept; [reflexivity| |reflexivity]. reflexivity.
Qed.

End AddTool.

(** The tool built from a schema carries the name of the schema, which is
    the name the forced-tool directive uses. *)
Lemma build_tool_name {Inst : Type} (om : OutputModel Inst) :
  Py.getitem (StructuredBatchInferer._build_tool om) "name" = Return (PStr (om_name om)).
Proof. reflexivity. Qed.

(** C6 as stated does not hold: a request that comes with a tool of its own
    leaves the adapter with the schema tool alone; the tool it had is gone. *)
Lemma add_tool_discards_existing_tools :
  let tool := StructuredBatchInferer.tool sample_structured_job in
  let with_tool :=
    StructuredBatchInferer._add_tool_to_model_input sample_structured_job
      input_with_calculator in
  tools input_with_calculator = PList [calculator_tool]
  /\ tools with_tool = PList [tool]
  /\ tools with_tool <> PList [calculator_tool; tool]
  /\ Py.getitem (to_dict with_tool) "tools" = Return (PList [tool]).
Proof.
  cbv zeta. split; [reflexivity|]. split; [reflexivity|].
  split; [discriminate|reflexivity].
Qed.

(** C6, amended.  In a structured batch of 100 entries or more, the record
    stored for each entry is the request of that entry with its tool list
    set to the schema tool alone and its tool choice set to that tool by
    name; the other attributes of the request are sent as they were. *)
Theorem structured_prepare_requests_forces_schema_tool
    {Inst : Type} (self : StructuredBatchInferer.t Inst) (w : World)
    (inputs : list (string * ModelInput)) :
  100 <= List.length inputs ->
  exists records : list pyval,
    StructuredBatchInferer.prepare_requests inputs (self, w)
    = (Return tt,
       ({| StructuredBatchInferer.base :=
             BatchInferer.set_requests (Some records) (StructuredBatchInferer.base self);
           StructuredBatchInferer.output_model := StructuredBatchInferer.output_model self;
           StructuredBatchInferer.tool := StructuredBatchInferer.tool self;
           StructuredBatchInferer.instances := StructuredBatchInferer.instances self |},
        w))
    /\ List.length records = List.length inputs
    /\ forall (i : nat) (id : string) (model_input : ModelInput),
         List.nth_error inputs i = Some (id, model_input) ->
         let sent :=
           to_dict (StructuredBatchInferer._add_tool_to_model_input self model_input) in
         List.nth_error records i
         = Some (PDict [("recordId", PStr id); ("modelInput", sent)])
         /\ Py.getitem sent "tools" = Return (PList [StructuredBatchInferer.tool self])
         /\ Py.getitem sent "tool_choice"
            = Return (PDict [("type", PStr "tool");
                             ("name",
                              PStr (om_name (StructuredBatchInferer.output_model self)))]).
Proof.
  intros Hge.
  set (with_tools :=
         List.map
           (fun entry => (fst entry,
                          StructuredBatchInferer._add_tool_to_model_input self (snd entry)))
           inputs).
  exists (List.map request_record with_tools).
  assert (Hlen : List.length with_tools = List.length inputs)
    by (unfold with_tools; apply List.length_map).
  split; [|split].
  - unfold StructuredBatchInferer.prepare_requests, StructuredBatchInferer.inherited.
    cbn [fst snd]. fold with_tools.
    rewrite prepare_requests_enough by lia. reflexivity.
  - rewrite List.length_map. exact Hlen.
  - intros i id model_input Hnth. cbv zeta.
    split; [|apply to_dict_add_tool].
    unfold with_tools. rewrite !List.nth_error_map, Hnth. reflexivity.
Qed.

Lemma structured_prepare_requests_forces_schema_tool_witness :
  exists records : list pyval,
    StructuredBatchInferer.prepare_requests
      (List.map (fun i => (sample_id i, input_with_calculator)) (List.seq 0 100))
      (sample_structured_job, empty_world)
    = (Return tt,
       ({| StructuredBatchInferer.base :=
             BatchInferer.set_requests (Some records)
               (StructuredBatchInferer.base sample_structured_job);
           StructuredBatchInferer.output_model := NameAgeModel;
           StructuredBatchInferer.tool := StructuredBatchInferer._build_tool NameAgeModel;
           StructuredBatchInferer.instances := None |},
        empty_world))
    /\ List.nth_error records 0
       = Some (PDict [("recordId", PStr "000");
                      ("modelInput",
                       to_dict (StructuredBatchInferer._add_tool_to_model_input
                                  sample_structured_job input_with_calculator))]).
Proof.
  destruct (structured_prepare_requests_forces_schema_tool sample_structured_job
              empty_world
              (List.map (fun i => (sample_id i, input_with_calculator)) (List.seq 0 100)))
    as (records & Hrun & _ & Hsent).
  - vm_compute. lia.
  - exists records. split; [exact Hrun|].
    exact (proj1 (Hsent 0 "000" input_with_calculator eq_refl)).
Defined.

(** * Further properties *)

(** ** Status and polling *)

Lemma finished_status_truthy (status : pyval) :
  Py.in_strs status VALID_FINISHED_STATUSES = true -> Py.truthy status = true.
Proof.
  destruct status as [| | | |s| |]; try discriminate.
  unfold Py.in_strs, VALID_FINISHED_STATUSES. cbn [existsb Py.eq_str].
  intros H. repeat (apply Bool.orb_true_iff in H; destruct H as [H|H]);
    try discriminate; apply String.eqb_eq in H; subst s; reflexivity.
Qed.

(** X1.  When the batch service reports a finished status, [check_complete]
    returns it and caches it, and the call after that one returns the same
    status from the cache: instance and world stay as the first call left
    them. *)
Theorem check_complete_finished_is_cached
    (env : Env) (self : BatchInferer.t) (w : World) (response status : pyval) :
  Py.in_strs (BatchInferer.job_status self) VALID_FINISHED_STATUSES = false ->
  get_model_invocation_job_reply env (calls w) (BatchInferer.job_arn self)
  = Return response ->
  Py.getitem response "status" = Return status ->
  Py.in_strs status VALID_FINISHED_STATUSES = true ->
  let after := (BatchInferer.set_job_status status self,
                record_call (GetModelInvocationJob (BatchInferer.job_arn self)) w) in
  BatchInferer.check_complete env (self, w) = (Return status, after)
  /\ BatchInferer.check_complete env after = (Return status, after).
Proof.
  intros Hrun Hreply Hstatus Hfin after. split.
  - rewrite (check_complete_query env self w response status Hrun Hreply Hstatus).
    rewrite Hfin. reflexivity.
  - unfold after. rewrite check_complete_cached; [reflexivity|exact Hfin].
Qed.

Lemma check_complete_finished_is_cached_witness :
  let after := (sample_job (PStr "Failed"),
                record_call (GetModelInvocationJob (Some sample_job_arn)) empty_world) in
  BatchInferer.check_complete (sample_env "Failed") (sample_job PNone, empty_world)
  = (Return (PStr "Failed"), after)
  /\ BatchInferer.check_complete (sample_env "Failed") after
     = (Return (PStr "Failed"), after).
Proof.
  apply (check_complete_finished_is_cached (sample_env "Failed") (sample_job PNone)
           empty_world (sample_job_details "Failed") (PStr "Failed")); reflexivity.
Defined.

(** X2.  When the status query raises, or its answer has no ["status"],
    [check_complete] raises the same exception and the instance keeps the
    status it had cached; the query is the only trace of the call. *)
Theorem check_complete_failure_keeps_status
    (env : Env) (self : BatchInferer.t) (w : World) (e : exn) :
  Py.in_strs (BatchInferer.job_status self) VALID_FINISHED_STATUSES = false ->
  (try! response <- get_model_invocation_job_reply env (calls w) (BatchInferer.job_arn self);
   Py.getitem response "status") = Raise e ->
  BatchInferer.check_complete env (self, w)
  = (Raise e,
     (self, record_call (GetModelInvocationJob (BatchInferer.job_arn self)) w)).
Proof.
  intros Hrun Hfail.
  unfold BatchInferer.check_complete, bind, BatchInferer.self_,
    BatchInferer.in_world, get_model_invocation_job, lift.
  cbn [fst snd]. rewrite Hrun. cbn [negb fst snd].
  destruct (get_model_invocation_job_reply env (calls w) (BatchInferer.job_arn self))
    as [response|e'].
  - cbn [obind] in Hfail. rewrite Hfail. reflexivity.
  - cbn [obind] in Hfail. injection Hfail as He. subst e'. reflexivity.
Qed.

Lemma check_complete_failure_keeps_status_witness :
  BatchInferer.check_complete
    (env_answering (fun _ _ => Raise (ClientError "ThrottlingException")))
    (sample_job (PStr "InProgress"), empty_world)
  = (Raise (ClientError "ThrottlingException"),
     (sample_job (PStr "InProgress"),
      record_call (GetModelInvocationJob (Some sample_job_arn)) empty_world)).
Proof.
  apply (check_complete_failure_keeps_status
           (env_answering (fun _ _ => Raise (ClientError "ThrottlingException")))
           (sample_job (PStr "InProgress")) empty_world
           (ClientError "ThrottlingException")); reflexivity.
Defined.

Lemma queries_in_calls (w : World) : queries_in (calls w) = status_queries w.
Proof. reflexivity. Qed.

(** X3.  The batch service reports a status that is not finished for the
    next [k] queries and a finished one at the query after them.  Given more
    than [k] rounds, [poll_progress] returns [True], with that finished
    status cached, after [k + 1] queries. *)
Theorem poll_progress_returns_when_finished
    (env : Env) (k : nat) :
  forall (self : BatchInferer.t) (w : World) (reported : nat -> pyval) (rounds : nat),
    Py.in_strs (BatchInferer.job_status self) VALID_FINISHED_STATUSES = false ->
    (forall (i : nat) (issued : list Event),
        i <= k ->
        queries_in issued = status_queries w + i ->
        exists response : pyval,
          get_model_invocation_job_reply env issued (BatchInferer.job_arn self)
          = Return response
          /\ Py.getitem response "status" = Return (reported i)) ->
    (forall i : nat, i < k ->
        Py.in_strs (reported i) VALID_FINISHED_STATUSES = false) ->
    Py.in_strs (reported k) VALID_FINISHED_STATUSES = true ->
    k < rounds ->
    exists w' : World,
      BatchInferer.poll_progress env rounds (self, w)
      = (Return (Some true), (BatchInferer.set_job_status (reported k) self, w'))
      /\ status_queries w' = status_queries w + k + 1
      /\ files w' = files w.
Proof.
  induction k as [|k IH]; intros self w reported rounds Hrun Hreply Hbefore Hfin Hrounds.
  - destruct rounds as [|rounds]; [lia|].
    destruct (Hreply 0 (calls w) (Nat.le_refl 0)) as (response & Hr & Hs).
    { rewrite queries_in_calls. lia. }
    exists (record_call (GetModelInvocationJob (BatchInferer.job_arn self)) w).
    split; [|split].
    + cbn [BatchInferer.poll_progress]. unfold bind at 1.
      rewrite (check_complete_query env self w response (reported 0) Hrun Hr Hs).
      rewrite Hfin. rewrite (finished_status_truthy _ Hfin). reflexivity.
    + unfold status_queries, record_call. cbn. lia.
    + reflexivity.
  - destruct rounds as [|rounds]; [lia|].
    destruct (Hreply 0 (calls w) ltac:(lia)) as (response & Hr & Hs).
    { rewrite queries_in_calls. lia. }
    pose proof (Hbefore 0 ltac:(lia)) as H0.
    set (self1 := BatchInferer.set_job_status (reported 0) self).
    set (w1 := record_call (GetModelInvocationJob (BatchInferer.job_arn self)) w).
    assert (Hq1 : status_queries w1 = S (status_queries w)) by reflexivity.
    destruct (IH self1 w1 (fun i => reported (S i)) rounds) as (w' & Hpoll & Hcount & Hfiles).
    + exact H0.
    + intros i issued Hi Hissued.
      apply (Hreply (S i) issued); [lia|]. rewrite Hissued, Hq1. lia.
    + intros i Hi. apply Hbefore. lia.
    + exact Hfin.
    + lia.
    + exists w'. split; [|split].
      * cbn [BatchInferer.poll_progress]. unfold bind at 1.
        rewrite (check_complete_query env self w response (reported 0) Hrun Hr Hs).
        rewrite H0. cbn [Py.truthy negb]. fold self1 w1. rewrite Hpoll. reflexivity.
      * rewrite Hcount, Hq1. lia.
      * rewrite Hfiles. reflexivity.
Qed.

Lemma poll_progress_returns_when_finished_witness :
  exists w' : World,
    BatchInferer.poll_progress (completing_env 2) 3 (sample_job PNone, empty_world)
    = (Return (Some true), (sample_job (PStr "Completed"), w'))
    /\ status_queries w' = status_queries empty_world + 2 + 1
    /\ files w' = files empty_world.
Proof.
  apply (poll_progress_returns_when_finished (completing_env 2) 2
           (sample_job PNone) empty_world
           (fun i => PStr (if Nat.ltb i 2 then "InProgress" else "Completed")) 3).
  - reflexivity.
  - intros i issued Hi Hissued.
    exists (sample_job_details
              (if Nat.ltb (queries_in issued) 2 then "InProgress" else "Completed")).
    split; [reflexivity|]. rewrite Hissued. reflexivity.
  - intros i Hi.
    destruct i as [|[|i]]; [reflexivity|reflexivity|lia].
  - reflexivity.
  - lia.
Defined.

(** ** Job identifiers *)

Lemma split_slash_not_empty (s : string) : split_slash s <> [].
Proof.
  destruct s as [|c s]; cbn [split_slash]; [discriminate|].
  destruct (Ascii.eqb c "/"); [discriminate|].
  destruct (split_slash s); discriminate.
Qed.

Lemma concat_cons_cons (sep x y : string) (l : list string) :
  String.concat sep (x :: y :: l) = x ++ sep ++ String.concat sep (y :: l).
Proof. reflexivity. Qed.

(** [split] and [join] are inverse: the pieces, joined by slashes, give the
    string back. *)
Lemma concat_split_slash (s : string) : String.concat "/" (split_slash s) = s.
Proof.
  induction s as [|c s IH]; [reflexivity|].
  cbn [split_slash].
  pose proof (split_slash_not_empty s) as Hne.
  destruct (split_slash s) as [|p ps]; [contradiction|].
  destruct (Ascii.eqb c "/") eqn:Hc.
  - apply Ascii.eqb_eq in Hc. subst c.
    rewrite concat_cons_cons, IH. reflexivity.
  - destruct ps as [|q qs].
    + cbn [String.concat] in *. rewrite IH. reflexivity.
    + rewrite concat_cons_cons in *. rewrite <- IH. reflexivity.
Qed.

Lemma split_slash_pieces (s : string) :
  List.Forall (fun piece => has_slash piece = false) (split_slash s).
Proof.
  induction s as [|c s IH]; cbn [split_slash].
  - constructor; [reflexivity|constructor].
  - destruct (Ascii.eqb c "/") eqn:Hc.
    + constructor; [reflexivity|exact IH].
    + destruct (split_slash s) as [|p ps]; [constructor; [cbn; rewrite Hc|]; auto|].
      inversion IH as [|? ? Hp Hps]; subst.
      constructor; [cbn [has_slash]; rewrite Hc, Hp; reflexivity|exact Hps].
Qed.

Lemma append_assoc (a b c : string) : (a ++ b) ++ c = a ++ b ++ c.
Proof. induction a as [|x a IH]; [reflexivity|]. cbn. rewrite IH. reflexivity. Qed.

Lemma last_cons_default (q p : string) (qs : list string) :
  List.last (q :: qs) p = List.last qs q.
Proof.
  revert q p. induction qs as [|r rs IH]; intros q p; [reflexivity|].
  change (List.last (q :: r :: rs) p) with (List.last (r :: rs) p).
  rewrite (IH r p). symmetry. apply IH.
Qed.

Lemma concat_slash_last (pieces : list string) (p : string) :
  exists before : string,
    String.concat "/" (p :: pieces) = before ++ List.last pieces p
    /\ (before = "" \/ exists stem : string, before = stem ++ "/").
Proof.
  revert p. induction pieces as [|q qs IH]; intros p.
  - exists "". split; [reflexivity|left; reflexivity].
  - destruct (IH q) as (before & Heq & Hor).
    exists (p ++ "/" ++ before). split.
    + rewrite concat_cons_cons, Heq, last_cons_default.
      rewrite !append_assoc. reflexivity.
    + right. destruct Hor as [Hemp|(stem & Hstem)]; subst before.
      * exists p. reflexivity.
      * exists (p ++ "/" ++ stem). rewrite !append_assoc. reflexivity.
Qed.

Lemma last_piece_split_slash (s : string) :
  exists uid before : string,
    last_piece (split_slash s) = Return uid
    /\ s = before ++ uid
    /\ (before = "" \/ exists stem : string, before = stem ++ "/")
    /\ has_slash uid = false.
Proof.
  pose proof (split_slash_not_empty s) as Hne.
  pose proof (concat_split_slash s) as Hjoin.
  pose proof (split_slash_pieces s) as Hpieces.
  destruct (split_slash s) as [|p ps]; [contradiction|].
  destruct (concat_slash_last ps p) as (before & Heq & Hor).
  exists (List.last ps p), before. split; [reflexivity|].
  split; [rewrite <- Hjoin; exact Heq|]. split; [exact Hor|].
  assert (Hin : List.In (List.last ps p) (p :: ps)).
  { clear. revert p. induction ps as [|q qs IH]; intros p; [left; reflexivity|].
    right. rewrite last_cons_default. apply IH. }
  rewrite List.Forall_forall in Hpieces. apply Hpieces. exact Hin.
Qed.

(** X4.  Without a job identifier, [None] or empty, [unique_id_from_arn]
    raises [ValueError].  With one, it returns what follows the last slash
    of the identifier, or the whole identifier when it has no slash: a
    string without a slash at the end of the identifier. *)
Theorem unique_id_from_arn_is_last_segment (self : BatchInferer.t) (w : World) :
  ((BatchInferer.job_arn self = None \/ BatchInferer.job_arn self = Some "") ->
   BatchInferer.unique_id_from_arn (self, w) = (Raise ValueError, (self, w)))
  /\ (forall arn : string,
        BatchInferer.job_arn self = Some arn ->
        arn <> "" ->
        exists uid before : string,
          BatchInferer.unique_id_from_arn (self, w) = (Return uid, (self, w))
          /\ arn = before ++ uid
          /\ (before = "" \/ exists stem : string, before = stem ++ "/")
          /\ has_slash uid = false).
Proof.
  unfold BatchInferer.unique_id_from_arn, bind, BatchInferer.self_. cbn [fst].
  split.
  - intros [Hnone|Hempty]; [rewrite Hnone|rewrite Hempty]; reflexivity.
  - intros arn Harn Hne. rewrite Harn, (string_eqb_empty_false arn Hne).
    destruct (last_piece_split_slash arn) as (uid & before & Hlast & Hrest).
    exists uid, before. unfold lift. rewrite Hlast. split; [reflexivity|exact Hrest].
Qed.

Lemma unique_id_from_arn_is_last_segment_witness :
  BatchInferer.unique_id_from_arn
    (BatchInferer.set_job_arn None (sample_job PNone), empty_world)
  = (Raise ValueError, (BatchInferer.set_job_arn None (sample_job PNone), empty_world))
  /\ exists uid before : string,
       BatchInferer.unique_id_from_arn (sample_job PNone, empty_world)
       = (Return uid, (sample_job PNone, empty_world))
       /\ sample_job_arn = before ++ uid
       /\ (before = "" \/ exists stem : string, before = stem ++ "/")
       /\ has_slash uid = false.
Proof.
  split.
  - apply (proj1 (unique_id_from_arn_is_last_segment
                    (BatchInferer.set_job_arn None (sample_job PNone)) empty_world)).
    left. reflexivity.
  - apply (proj2 (unique_id_from_arn_is_last_segment (sample_job PNone) empty_world)
             sample_job_arn); [reflexivity|discriminate].
Defined.

(** ** Download of the results *)

Section DownloadResults.

Variable env : Env.






End DownloadResults.



(** ** Recovery: what goes wrong *)

(** X7.  [recover_details_from_job_arn] leaves the check of the job to
    [check_for_existing_job], outside its own handlers.  An identifier that
    does not start with [arn:aws:bedrock:] is a [ValueError] raised before
    any service is reached; a job the service does not know is a
    [ValueError]; any other [ClientError] of the service is a
    [RuntimeError]. *)
Theorem recover_details_rejects_job
    (env : Env) (job_arn region : string) (w : World) :
  (startswith job_arn "arn:aws:bedrock:" = false ->
   BatchInferer.recover_details_from_job_arn env job_arn region w
   = (Raise ValueError, w))
  /\ (forall code : string,
        startswith job_arn "arn:aws:bedrock:" = true ->
        get_model_invocation_job_reply env (calls w) (Some job_arn)
        = Raise (ClientError code) ->
        BatchInferer.recover_details_from_job_arn env job_arn region w
        = (Raise (if String.eqb code "ResourceNotFoundException" then ValueError
                  else RuntimeError),
           record_call (GetModelInvocationJob (Some job_arn)) w)).
Proof.
  unfold BatchInferer.recover_details_from_job_arn, BatchInferer.check_for_existing_job.
  split.
  - intros Hprefix. rewrite Hprefix. reflexivity.
  - intros code Hprefix Hreply. rewrite Hprefix. cbn [negb].
    unfold bind, catch, get_model_invocation_job. rewrite Hreply.
    cbn [is_ClientError]. destruct (String.eqb code "ResourceNotFoundException"); reflexivity.
Qed.

Lemma recover_details_rejects_job_witness :
  BatchInferer.recover_details_from_job_arn (sample_env "Completed")
    sample_role_arn "eu-west-2" world_with_submission
  = (Raise ValueError, world_with_submission)
  /\ BatchInferer.recover_details_from_job_arn
       (env_answering (fun _ _ => Raise (ClientError "ResourceNotFoundException")))
       sample_job_arn "eu-west-2" world_with_submission
     = (Raise ValueError,
        record_call (GetModelInvocationJob (Some sample_job_arn)) world_with_submission).
Proof.
  split.
  - apply (proj1 (recover_details_rejects_job (sample_env "Completed")
                    sample_role_arn "eu-west-2" world_with_submission)).
    reflexivity.
  - apply (proj2 (recover_details_rejects_job
                    (env_answering
                       (fun _ _ => Raise (ClientError "ResourceNotFoundException")))
                    sample_job_arn "eu-west-2" world_with_submission)
             "ResourceNotFoundException"); reflexivity.
Defined.

Section RecoveredJob.

(** A job that [check_for_existing_job] accepts, and whose metadata name a
    job, a model, a submission in a bucket and a role. *)
Variable env : Env.
Variables (w : World) (job_arn region : string).
Variables (response metadata http_status input_data_config s3_input_data_config : pyval).
Variables (job_name s3_uri bucket_name role_arn : string) (model_id : pyval).

Hypothesis Harn : startswith job_arn "arn:aws:bedrock:" = true.
Hypothesis Hreply :
  get_model_invocation_job_reply env (calls w) (Some job_arn) = Return response.
Hypothesis Hmeta : Py.getitem response "ResponseMetadata" = Return metadata.
Hypothesis Hhttp : Py.getitem metadata "HTTPStatusCode" = Return http_status.
Hypothesis H200 : Py.eq_int http_status 200 = true.

Let w1 : World := record_call (GetModelInvocationJob (Some job_arn)) w.

Lemma check_for_existing_job_accepts :
  BatchInferer.check_for_existing_job env job_arn region w = (Return response, w1).
Proof.
  unfold BatchInferer.check_for_existing_job. rewrite Harn. cbn [negb].
  unfold bind, catch, get_model_invocation_job, lift, ret.
  rewrite Hreply, Hmeta, Hhttp, H200. reflexivity.
Qed.

(** X8.  Metadata without a ["jobName"], or with one but without a
    ["modelId"], make recovery raise [ValueError], before it looks for the
    submission file or builds anything. *)
Theorem recover_details_missing_field :
  (Py.getitem response "jobName" = Raise KeyError
   \/ (exists name : pyval, Py.getitem response "jobName" = Return name)
      /\ Py.getitem response "modelId" = Raise KeyError) ->
  BatchInferer.recover_details_from_job_arn env job_arn region w
  = (Raise ValueError, w1).
Proof.
  intros Hmissing.
  unfold BatchInferer.recover_details_from_job_arn. unfold bind at 1.
  rewrite check_for_existing_job_accepts.
  unfold catch, bind, BatchInferer.recovered_parameters, bind, lift.
  destruct Hmissing as [Hname|[(name & Hname) Hmodel]].
  - rewrite Hname. reflexivity.
  - rewrite Hname, Hmodel. reflexivity.
Qed.

Hypothesis Hname : Py.getitem response "jobName" = Return (PStr job_name).
Hypothesis Hmodel : Py.getitem response "modelId" = Return model_id.
Hypothesis Hidc : Py.getitem response "inputDataConfig" = Return input_data_config.
Hypothesis Hs3 :
  Py.getitem input_data_config "s3InputDataConfig" = Return s3_input_data_config.
Hypothesis Huri : Py.getitem s3_input_data_config "s3Uri" = Return (PStr s3_uri).
Hypothesis Hbucket : third_piece (split_slash s3_uri) = Return bucket_name.
Hypothesis Hrole : Py.getitem response "roleArn" = Return (PStr role_arn).

(** X9.  When the submission file of the job is not on disk, recovery
    raises [RuntimeError]: the [FileNotFoundError] it raises itself is taken
    by its own last handler.  Nothing has been built by then: the status
    query is the only call issued. *)
Theorem recover_details_missing_submission :
  files w (job_name ++ ".jsonl") = None ->
  BatchInferer.recover_details_from_job_arn env job_arn region w
  = (Raise RuntimeError, w1).
Proof.
  intros Hfile.
  unfold BatchInferer.recover_details_from_job_arn. unfold bind at 1.
  rewrite check_for_existing_job_accepts.
  unfold catch, bind, BatchInferer.recovered_parameters, bind, lift, path_exists.
  rewrite Hname, Hmodel, Hidc, Hs3, Huri. cbn [Py.str_receiver].
  rewrite Hbucket, Hrole. cbn [Py.as_str]. unfold w1, record_call. cbn [files].
  rewrite Hfile. reflexivity.
Qed.

Variables (lines : list string) (records : list pyval).
Hypothesis Hfile : files w (job_name ++ ".jsonl") = Some lines.
Hypothesis Hparse : loads_lines env lines = Return records.

Lemma recovered_parameters_found :
  BatchInferer.recovered_parameters env response w1
  = (Return (job_name, model_id, bucket_name, role_arn, records), w1).
Proof.
  unfold BatchInferer.recovered_parameters, bind, lift, path_exists, _read_jsonl, ret.
  rewrite Hname, Hmodel, Hidc, Hs3, Huri. cbn [Py.str_receiver].
  rewrite Hbucket, Hrole. cbn [Py.as_str]. unfold w1, record_call. cbn [files].
  rewrite Hfile. cbn [negb files]. rewrite Hfile, Hparse. reflexivity.
Qed.

(** X10.  With no [AWS_PROFILE] in the environment, a recovery that has
    found the job and its submission file raises [ValueError], the error it
    uses for malformed metadata: the [KeyError] of [check_for_profile] is
    raised inside the constructor and is taken by the handler meant for
    missing metadata fields. *)
Theorem recover_details_without_profile (w2 : World) :
  BatchInferer._check_bucket env bucket_name region w1 = (Return tt, w2) ->
  (AWS_PROFILE env = None \/ AWS_PROFILE env = Some "") ->
  BatchInferer.recover_details_from_job_arn env job_arn region w
  = (Raise ValueError, w2).
Proof.
  intros Hcheck Hprofile.
  unfold BatchInferer.recover_details_from_job_arn. unfold bind at 1.
  rewrite check_for_existing_job_accepts.
  unfold catch. unfold bind at 1. rewrite recovered_parameters_found.
  unfold BatchInferer.init. unfold bind. rewrite Hcheck.
  unfold BatchInferer.check_for_profile.
  destruct Hprofile as [Hp|Hp]; rewrite Hp; reflexivity.
Qed.

End RecoveredJob.

Lemma recover_details_missing_field_witness :
  BatchInferer.recover_details_from_job_arn
    (env_answering (fun _ _ => Return nameless_job_details))
    sample_job_arn "eu-west-2" world_with_submission
  = (Raise ValueError,
     record_call (GetModelInvocationJob (Some sample_job_arn)) world_with_submission).
Proof.
  apply (recover_details_missing_field
           (env_answering (fun _ _ => Return nameless_job_details))
           world_with_submission sample_job_arn "eu-west-2" nameless_job_details
           (PDict [("HTTPStatusCode", PInt 200)]) (PInt 200));
    try reflexivity.
  left. reflexivity.
Defined.

Lemma recover_details_missing_submission_witness :
  BatchInferer.recover_details_from_job_arn (sample_env "Completed")
    sample_job_arn "eu-west-2" empty_world
  = (Raise RuntimeError,
     record_call (GetModelInvocationJob (Some sample_job_arn)) empty_world).
Proof.
  eapply (recover_details_missing_submission (sample_env "Completed") empty_world
            sample_job_arn "eu-west-2" (sample_job_details "Completed"));
    reflexivity.
Defined.

Lemma recover_details_without_profile_witness :
  BatchInferer.recover_details_from_job_arn env_without_profile
    sample_job_arn "eu-west-2" world_with_submission
  = (Raise ValueError,
     {| calls := [GetBucketLocation "my-inference-bucket";
                  HeadBucket "my-inference-bucket";
                  GetModelInvocationJob (Some sample_job_arn)];
        files := files world_with_submission |}).
Proof.
  eapply (recover_details_without_profile env_without_profile world_with_submission
            sample_job_arn "eu-west-2" (sample_job_details "Completed"));
    try reflexivity.
  left. reflexivity.
Defined.

(** ** Structured recovery *)

(** X11.  [recover_structured_job] does what [recover_details_from_job_arn]
    of the plain class does and nothing else to the world: it raises what
    the plain recovery raises, and where the plain recovery returns an
    instance it returns that instance with the schema, the tool built from
    the schema, and no instances yet. *)
Theorem recover_structured_job_mirrors_plain
    {Inst : Type} (env : Env) (job_arn region : string) (om : OutputModel Inst)
    (w : World) :
  StructuredBatchInferer.recover_structured_job env job_arn region om w
  = match BatchInferer.recover_details_from_job_arn env job_arn region w with
    | (Return bi, w') =>
        (Return {| StructuredBatchInferer.base := bi;
                   StructuredBatchInferer.output_model := om;
                   StructuredBatchInferer.tool := StructuredBatchInferer._build_tool om;
                   StructuredBatchInferer.instances := None |}, w')
    | (Raise e, w') => (Raise e, w')
    end.
Proof.
  unfold StructuredBatchInferer.recover_structured_job,
    BatchInferer.recover_details_from_job_arn, StructuredBatchInferer.init,
    BatchInferer.recovery_handler, bind, catch, lift, ret, raise.
  destruct (BatchInferer.check_for_existing_job env job_arn region w)
    as [[response|e] w1]; [|reflexivity].
  destruct (BatchInferer.recovered_parameters env response w1)
    as [[[[[[job_name model_id] bucket_name] role_arn] records]|e] w2].
  - destruct (BatchInferer.init env model_id bucket_name region job_name role_arn 24 w2)
      as [[built|e] w3].
    + destruct (Py.getitem response "status") as [status|e].
      * reflexivity.
      * destruct (is_KeyError_or_IndexError e); reflexivity.
    + destruct (is_KeyError_or_IndexError e); reflexivity.
  - destruct (is_KeyError_or_IndexError e); reflexivity.
Qed.

(** ** Construction *)

(** X12.  When [__init__] is given an empty job name and its checks pass,
    the instance gets a generated job name, [batch_inference_] and a piece
    of a fresh UUID, but its submission file name is built from the empty
    name it was given: [.jsonl], not the generated name with that
    extension. *)
Theorem init_empty_job_name
    (env : Env) (model_name : pyval) (bucket_name region role_arn : string)
    (hours : Z) (w w1 w2 : World) :
  BatchInferer._check_bucket env bucket_name region w = (Return tt, w1) ->
  BatchInferer.check_for_profile env w1 = (Return tt, w1) ->
  BatchInferer._check_arn env role_arn w1 = (Return true, w2) ->
  exists built : BatchInferer.t,
    BatchInferer.init env model_name bucket_name region "" role_arn hours w
    = (Return built, w2)
    /\ BatchInferer.job_name built = "batch_inference_" ++ uuid4_prefix env
    /\ BatchInferer.file_name built = ".jsonl"
    /\ BatchInferer.file_name built <> BatchInferer.job_name built ++ ".jsonl".
Proof.
  intros Hbucket Hprofile Hrole.
  eexists. split; [|split; [|split]].
  - unfold BatchInferer.init, bind, ret. rewrite Hbucket, Hprofile, Hrole. reflexivity.
  - reflexivity.
  - reflexivity.
  - cbn. discriminate.
Qed.

Lemma init_empty_job_name_witness :
  exists built : BatchInferer.t,
    BatchInferer.init (sample_env "Completed")
      (PStr "anthropic.claude-3-haiku-20240307-v1:0") "my-inference-bucket" "eu-west-2"
      "" sample_role_arn 24 empty_world
    = (Return built,
       {| calls := [GetRole "BedrockBatchRole";
                    GetBucketLocation "my-inference-bucket";
                    HeadBucket "my-inference-bucket"];
          files := files empty_world |})
    /\ BatchInferer.job_name built = "batch_inference_" ++ "1a2b3c"
    /\ BatchInferer.file_name built = ".jsonl"
    /\ BatchInferer.file_name built <> BatchInferer.job_name built ++ ".jsonl".
Proof.
  apply (init_empty_job_name (sample_env "Completed")
           (PStr "anthropic.claude-3-haiku-20240307-v1:0") "my-inference-bucket"
           "eu-west-2" sample_role_arn 24 empty_world
           {| calls := [GetBucketLocation "my-inference-bucket";
                        HeadBucket "my-inference-bucket"];
              files := files empty_world |});
    reflexivity.
Defined.

(** X13.  [_check_arn]: a role identifier that does not start with
    [arn:aws:iam::] is a [ValueError] raised before IAM is asked.  For one
    that does, IAM is asked for the role named by its last segment: the
    check returns [True] when the role exists, raises [ValueError] when IAM
    answers [NoSuchEntity], and lets any other [ClientError] through as it
    is. *)
Theorem check_arn_outcomes (env : Env) (role_arn : string) (w : World) :
  (startswith role_arn "arn:aws:iam::" = false ->
   BatchInferer._check_arn env role_arn w = (Raise ValueError, w))
  /\ (forall role_name : string,
        startswith role_arn "arn:aws:iam::" = true ->
        last_piece (split_slash role_arn) = Return role_name ->
        BatchInferer._check_arn env role_arn w
        = (match get_role_reply env role_name with
           | Return _ => Return true
           | Raise (ClientError code) =>
               if String.eqb code "NoSuchEntity" then Raise ValueError
               else Raise (ClientError code)
           | Raise e => Raise e
           end,
           record_call (GetRole role_name) w)).
Proof.
  unfold BatchInferer._check_arn. split.
  - intros Hprefix. rewrite Hprefix. reflexivity.
  - intros role_name Hprefix Hlast. rewrite Hprefix. cbn [negb].
    unfold bind at 1. unfold lift. rewrite Hlast.
    unfold catch, bind, get_role, ret.
    destruct (get_role_reply env role_name) as [[]|e]; [reflexivity|].
    destruct e; try reflexivity.
    cbn [is_ClientError]. destruct (String.eqb code "NoSuchEntity"); reflexivity.
Qed.

Lemma check_arn_outcomes_witness :
  BatchInferer._check_arn (sample_env "Completed") sample_job_arn empty_world
  = (Raise ValueError, empty_world)
  /\ BatchInferer._check_arn (sample_env "Completed") sample_role_arn empty_world
     = (Return true, record_call (GetRole "BedrockBatchRole") empty_world).
Proof.
  split.
  - apply (proj1 (check_arn_outcomes (sample_env "Completed") sample_job_arn empty_world)).
    reflexivity.
  - apply (proj2 (check_arn_outcomes (sample_env "Completed") sample_role_arn empty_world)
             "BedrockBatchRole"); reflexivity.
Defined.

(** X14.  S3 reports the location of a bucket in [us-east-1] as [None].
    For such a bucket, reachable through [head_bucket], [_check_bucket]
    passes when the region asked for is [us-east-1] and raises [ValueError]
    for every other region. *)
Theorem check_bucket_default_region
    (env : Env) (bucket_name region : string) (w : World) (response : pyval) :
  head_bucket_reply env bucket_name = Return tt ->
  get_bucket_location_reply env bucket_name = Return response ->
  Py.truthy response = true ->
  Py.getitem response "LocationConstraint" = Return PNone ->
  BatchInferer._check_bucket env bucket_name region w
  = (if String.eqb region "us-east-1" then Return tt else Raise ValueError,
     record_call (GetBucketLocation bucket_name)
       (record_call (HeadBucket bucket_name) w)).
Proof.
  intros Hhead Hloc Htruthy Hconstraint.
  unfold BatchInferer._check_bucket, BatchInferer._get_bucket_location.
  unfold bind, catch, head_bucket, get_bucket_location, lift, ret.
  rewrite Hhead, Hloc, Htruthy, Hconstraint.
  cbn [Py.truthy Py.eq_str]. rewrite String.eqb_sym.
  destruct (String.eqb region "us-east-1"); reflexivity.
Qed.

Lemma check_bucket_default_region_witness :
  BatchInferer._check_bucket env_us_east_1 "my-inference-bucket" "us-east-1" empty_world
  = (Return tt,
     record_call (GetBucketLocation "my-inference-bucket")
       (record_call (HeadBucket "my-inference-bucket") empty_world))
  /\ BatchInferer._check_bucket env_us_east_1 "my-inference-bucket" "eu-west-2" empty_world
     = (Raise ValueError,
        record_call (GetBucketLocation "my-inference-bucket")
          (record_call (HeadBucket "my-inference-bucket") empty_world)).
Proof.
  split.
  - apply (check_bucket_default_region env_us_east_1 "my-inference-bucket" "us-east-1"
             empty_world (PDict [("LocationConstraint", PNone)])); reflexivity.
  - apply (check_bucket_default_region env_us_east_1 "my-inference-bucket" "eu-west-2"
             empty_world (PDict [("LocationConstraint", PNone)])); reflexivity.
Defined.

(** ** What is sent for a request *)

Lemma lookup_in_keys (k : string) (v : pyval) (d : list (string * pyval)) :
  Py.lookup k d = Some v -> List.In k (List.map fst d).
Proof.
  induction d as [|[k2 v2] d IH]; [discriminate|].
  cbn [Py.lookup List.map fst List.In].
  destruct (String.eqb k k2) eqn:Hk2.
  - intros _. left. apply String.eqb_eq in Hk2. symmetry. exact Hk2.
  - intros Hin. right. apply IH. exact Hin.
Qed.

Lemma lookup_filter_found (p : string * pyval -> bool) (k : string) (v : pyval)
    (d : list (string * pyval)) :
  List.NoDup (List.map fst d) ->
  Py.lookup k (List.filter p d) = Some v ->
  Py.lookup k d = Some v /\ p (k, v) = true.
Proof.
  induction d as [|[k' v'] d IH]; intros Hnodup Hlook.
  - discriminate.
  - inversion Hnodup as [|? ? Hnotin Hnodup']; subst.
    cbn [List.filter] in Hlook. cbn [Py.lookup].
    destruct (p (k', v')) eqn:Hp.
    + cbn [Py.lookup] in Hlook. destruct (String.eqb k k') eqn:Hk.
      * apply String.eqb_eq in Hk. subst k'. injection Hlook as Hv. subst v'.
        split; [reflexivity|exact Hp].
      * apply IH; assumption.
    + destruct (String.eqb k k') eqn:Hk.
      * apply String.eqb_eq in Hk. subst k'. exfalso.
        destruct (IH Hnodup' Hlook) as [Hin _]. apply Hnotin.
        exact (lookup_in_keys k v d Hin).
      * apply IH; assumption.
Qed.

Lemma attributes_keys_distinct (self : ModelInput) :
  List.NoDup (List.map fst (attributes self)).
Proof.
  cbn [attributes List.map fst].
  repeat (constructor;
          [cbn [List.In]; intros H;
           repeat (destruct H as [H|H]; [discriminate H|]); exact H|]).
  constructor.
Qed.

(** X15.  [to_dict] keeps an attribute exactly when it is not [None], with
    the value it has: a key maps to [v] in the dict if and only if the
    attribute of that name is [v] and [v] is not [None].  No [None] is ever
    sent at the top level of a request. *)
Theorem to_dict_keeps_what_is_not_None (self : ModelInput) (k : string) (v : pyval) :
  Py.lookup k (entries (to_dict self)) = Some v
  <-> (Py.lookup k (attributes self) = Some v /\ v <> PNone).
Proof.
  change (entries (to_dict self))
    with (List.filter (fun kv => negb (is_None (snd kv))) (attributes self)).
  split.
  - intros Hlook.
    destruct (lookup_filter_found _ k v (attributes self)
                (attributes_keys_distinct self) Hlook) as [Hfound Hp].
    split; [exact Hfound|]. cbn [snd] in Hp. intros Hv. subst v. discriminate Hp.
  - intros [Hfound Hv]. apply lookup_filter_kept; [exact Hfound|].
    cbn [snd]. destruct v; try reflexivity. contradiction.
Qed.

(** ** Validation of one result, and of all *)

Section SingleToolCall.

Context {Inst : Type} (om : OutputModel Inst).

(** A raw result that stopped on a tool call and holds one block, of type
    ["tool_use"]. *)
Variables (result stop_reason block ty : pyval).
Hypothesis Hstop : Py.getitem result "stop_reason" = Return stop_reason.
Hypothesis Htool_use : Py.eq_str stop_reason "tool_use" = true.
Hypothesis Hcontent : Py.getitem result "content" = Return (PList [block]).
Hypothesis Htype : Py.getitem block "type" = Return ty.
Hypothesis Hblock : Py.eq_str ty "tool_use" = true.

Lemma validate_result_reaches_payload :
  validate_result om result
  = try_except
      (try! payload <- Py.getitem block "input";
       try! output <- call_with_kwargs om payload;
       Return (Some output))
      is_TypeError
      (fun _ => Return None).
Proof.
  unfold validate_result. rewrite Hstop. cbn [obind]. rewrite Htool_use. cbn [negb].
  rewrite Hcontent. cbn [obind Py.len List.length Nat.eqb negb Py.getitem0].
  rewrite Htype. cbn [obind]. rewrite Hblock. reflexivity.
Qed.

(** X16.  For such a result the schema's constructor decides: what it
    returns is the validated record; a [TypeError] it raises becomes
    [None]; any other exception it raises leaves [validate_result]. *)
Theorem validate_result_follows_constructor (payload : pyval) :
  Py.getitem block "input" = Return payload ->
  validate_result om result
  = match call_with_kwargs om payload with
    | Return output => Return (Some output)
    | Raise e => if is_TypeError e then Return None else Raise e
    end.
Proof.
  intros Hinput. rewrite validate_result_reaches_payload, Hinput.
  cbn [obind]. unfold try_except, obind.
  destruct (call_with_kwargs om payload); reflexivity.
Qed.

(** X17.  A tool call whose input is not a JSON object (a list, a string, a
    number, [null]) is recorded as [None]: unpacking it raises the
    [TypeError] the handler takes.  A tool-call block without an ["input"]
    raises [KeyError], which the handler does not take. *)
Theorem validate_result_malformed_input :
  (forall payload : pyval,
      Py.getitem block "input" = Return payload ->
      (forall kw : list (string * pyval), payload <> PDict kw) ->
      validate_result om result = Return None)
  /\ (Py.getitem block "input" = Raise KeyError ->
      validate_result om result = Raise KeyError).
Proof.
  split.
  - intros payload Hinput Hnot. rewrite validate_result_reaches_payload, Hinput.
    cbn [obind].
    destruct payload as [| | | | | |kw]; try reflexivity.
    exfalso. exact (Hnot kw eq_refl).
  - intros Hinput. rewrite validate_result_reaches_payload, Hinput. reflexivity.
Qed.

End SingleToolCall.

Lemma validate_result_follows_constructor_witness :
  validate_result NameAgeModel (tool_use_result john_30)
  = Return (Some {| na_name := "John"; na_age := 30 |}).
Proof.
  apply (validate_result_follows_constructor NameAgeModel (tool_use_result john_30)
           (PStr "tool_use") (PDict [("type", PStr "tool_use"); ("input", john_30)])
           (PStr "tool_use") eq_refl eq_refl eq_refl eq_refl eq_refl john_30 eq_refl).
Defined.

Lemma validate_result_malformed_input_witness :
  validate_result NameAgeModel (tool_use_result (PList [PStr "John"; PInt 30]))
  = Return None
  /\ validate_result NameAgeModel
       (PDict [("stop_reason", PStr "tool_use");
               ("content", PList [PDict [("type", PStr "tool_use")]])])
     = Raise KeyError.
Proof.
  split.
  - apply (proj1 (validate_result_malformed_input NameAgeModel
                    (tool_use_result (PList [PStr "John"; PInt 30]))
                    (PStr "tool_use")
                    (PDict [("type", PStr "tool_use");
                            ("input", PList [PStr "John"; PInt 30])])
                    (PStr "tool_use") eq_refl eq_refl eq_refl eq_refl eq_refl)
             (PList [PStr "John"; PInt 30]) eq_refl).
    intros kw. discriminate.
  - apply (proj2 (validate_result_malformed_input NameAgeModel
                    (PDict [("stop_reason", PStr "tool_use");
                            ("content", PList [PDict [("type", PStr "tool_use")]])])
                    (PStr "tool_use") (PDict [("type", PStr "tool_use")])
                    (PStr "tool_use") eq_refl eq_refl eq_refl eq_refl eq_refl)).
    reflexivity.
Defined.

Section Instances.

Context {Inst : Type} (om : OutputModel Inst).

(** X18.  The comprehension of [load_results] returns a list exactly when
    every raw result yields an entry, and the list then holds these entries,
    one per result, in the order of the results. *)
Theorem instances_of_returns_iff
    (results : list pyval) (built : list (option (pyval * option Inst))) :
  instances_of om results = Return built
  <-> List.Forall2 (fun result entry => instance_of om result = Return entry)
        results built.
Proof.
  revert built. induction results as [|result rest IH]; intros built.
  - cbn [instances_of]. split.
    + intros H. injection H as H. subst built. constructor.
    + intros H. inversion H. reflexivity.
  - cbn [instances_of]. split.
    + intros H. destruct (instance_of om result) as [entry|e] eqn:He; [|discriminate].
      cbn [obind] in H.
      destruct (instances_of om rest) as [others|e] eqn:Hrest; [|discriminate].
      cbn [obind] in H. injection H as H. subst built.
      constructor; [exact He|]. apply IH. reflexivity.
    + intros H. inversion H as [|? entry ? others Hentry Hothers]; subst.
      rewrite Hentry. cbn [obind].
      apply IH in Hothers. rewrite Hothers. reflexivity.
Qed.

(** X19.  One raw result whose entry raises is enough for the whole
    comprehension to raise: no list is produced, whatever the other results
    are. *)
Theorem instances_of_raises_with_one
    (results : list pyval) (result : pyval) (e : exn) :
  List.In result results ->
  instance_of om result = Raise e ->
  exists e' : exn, instances_of om results = Raise e'.
Proof.
  intros Hin Hraise. induction results as [|first rest IH]; [contradiction|].
  cbn [instances_of].
  destruct (instance_of om first) as [entry|e1] eqn:Hfirst.
  - destruct Hin as [Heq|Hin].
    + subst first. rewrite Hraise in Hfirst. discriminate.
    + destruct (IH Hin) as (e' & He'). exists e'. cbn [obind]. rewrite He'. reflexivity.
  - exists e1. reflexivity.
Qed.

(** X20.  A raw result without a ["modelOutput"], or with a falsy one, as
    the service writes for a record it failed on, gives the entry [None];
    neither its ["recordId"] nor the validator is consulted.  A raw result
    with a truthy ["modelOutput"] and a ["recordId"] gives the identifier
    paired with what [validate_result] returns for the output. *)
Theorem instance_of_entry (record : list (string * pyval)) :
  ((Py.lookup "modelOutput" record = None
    \/ exists output : pyval,
         Py.lookup "modelOutput" record = Some output /\ Py.truthy output = false) ->
   instance_of om (PDict record) = Return None)
  /\ (forall (output record_id : pyval) (validated : option Inst),
        Py.lookup "modelOutput" record = Some output ->
        Py.truthy output = true ->
        Py.lookup "recordId" record = Some record_id ->
        validate_result om output = Return validated ->
        instance_of om (PDict record) = Return (Some (record_id, validated))).
Proof.
  unfold instance_of, Py.dict_get, Py.getitem. split.
  - intros [Hnone|(output & Hsome & Hfalsy)].
    + rewrite Hnone. reflexivity.
    + rewrite Hsome. cbn [obind]. rewrite Hfalsy. reflexivity.
  - intros output record_id validated Hout Htruthy Hid Hvalid.
    rewrite Hout. cbn [obind]. rewrite Htruthy, Hid. cbn [obind].
    rewrite Hvalid. reflexivity.
Qed.

End Instances.

Lemma instances_of_raises_with_one_witness :
  exists e' : exn,
    instances_of NameAgeModel
      [PDict [("recordId", PStr "000"); ("modelOutput", tool_use_result john_30)];
       PDict [("recordId", PStr "001");
              ("modelOutput", tool_use_result john_without_age)]]
    = Raise e'.
Proof.
  apply (instances_of_raises_with_one NameAgeModel _
           (PDict [("recordId", PStr "001");
                   ("modelOutput", tool_use_result john_without_age)])
           PydanticValidationError).
  - right. left. reflexivity.
  - reflexivity.
Defined.

Lemma instance_of_entry_witness :
  instance_of NameAgeModel
    (PDict [("recordId", PStr "002"); ("error", PDict [("errorCode", PInt 400)])])
  = Return None
  /\ instance_of NameAgeModel
       (PDict [("recordId", PStr "000"); ("modelOutput", tool_use_result john_30)])
     = Return (Some (PStr "000", Some {| na_name := "John"; na_age := 30 |})).
Proof.
  split.
  - apply (proj1 (instance_of_entry NameAgeModel
                    [("recordId", PStr "002");
                     ("error", PDict [("errorCode", PInt 400)])])).
    left. reflexivity.
  - apply (proj2 (instance_of_entry NameAgeModel
                    [("recordId", PStr "000"); ("modelOutput", tool_use_result john_30)])
             (tool_use_result john_30) (PStr "000")
             (Some {| na_name := "John"; na_age := 30 |})); reflexivity.
Defined.

(** ** Cancellation *)

Section Cancel.

Variable command_reply : BatchInferer.Command -> Outcome pyval.

(** X21.  Without a job identifier, [None] or empty, [cancel_batch] raises
    [ValueError]; it sends nothing and changes nothing. *)
Theorem cancel_batch_requires_job (self : BatchInferer.t) (ss : BatchInferer.Session) :
  BatchInferer.job_arn self = None \/ BatchInferer.job_arn self = Some "" ->
  BatchInferer.cancel_batch command_reply (self, ss) = (Raise ValueError, (self, ss)).
Proof.
  intros Hjob. unfold BatchInferer.cancel_batch, bind, BatchInferer.querying,
    BatchInferer.self_. cbn [fst snd].
  destruct ss as [w cs]. cbn [BatchInferer.world BatchInferer.commands].
  destruct Hjob as [H|H]; rewrite H; reflexivity.
Qed.

Variables (self : BatchInferer.t) (ss : BatchInferer.Session) (arn : string).
Variables (response metadata http_status : pyval).
Hypothesis Hjob : BatchInferer.job_arn self = Some arn.
Hypothesis Hne : arn <> "".
Hypothesis Hreply :
  command_reply (BatchInferer.StopModelInvocationJob arn) = Return response.
Hypothesis Hmeta : Py.getitem response "ResponseMetadata" = Return metadata.
Hypothesis Hhttp : Py.getitem metadata "HTTPStatusCode" = Return http_status.

Let sent : BatchInferer.Session :=
  {| BatchInferer.world := BatchInferer.world ss;
     BatchInferer.commands :=
       BatchInferer.StopModelInvocationJob arn :: BatchInferer.commands ss |}.

Lemma cancel_batch_answered :
  BatchInferer.cancel_batch command_reply (self, ss)
  = if Py.eq_int http_status 200
    then (Return tt, (BatchInferer.set_job_status (PStr "Stopped") self, sent))
    else (Raise RuntimeError, (self, sent)).
Proof.
  unfold BatchInferer.cancel_batch, bind, BatchInferer.querying, BatchInferer.self_,
    BatchInferer.send, lift, BatchInferer.update, raise.
  destruct ss as [w cs]. cbn [fst snd BatchInferer.world BatchInferer.commands].
  rewrite Hjob, (string_eqb_empty_false arn Hne).
  cbn [fst snd BatchInferer.world BatchInferer.commands].
  rewrite Hreply, Hmeta, Hhttp.
  destruct (Py.eq_int http_status 200); reflexivity.
Qed.

(** X22.  When the stop request is answered with status 200,
    [cancel_batch] sets the cached status to [Stopped], and from then on
    [check_complete] returns [Stopped] without asking the batch service,
    whatever the service would say of the job. *)
Theorem cancel_batch_then_check_complete (env : Env) :
  Py.eq_int http_status 200 = true ->
  let stopped := BatchInferer.set_job_status (PStr "Stopped") self in
  BatchInferer.cancel_batch command_reply (self, ss) = (Return tt, (stopped, sent))
  /\ BatchInferer.querying (BatchInferer.check_complete env) (stopped, sent)
     = (Return (PStr "Stopped"), (stopped, sent)).
Proof.
  intros H200 stopped. split.
  - rewrite cancel_batch_answered, H200. reflexivity.
  - unfold BatchInferer.querying. cbn [fst snd].
    rewrite check_complete_cached; reflexivity.
Qed.

(** X23.  When the stop request is answered with any other status,
    [cancel_batch] raises [RuntimeError] and the instance, its cached status
    included, is as it was; the request has been sent. *)
Theorem cancel_batch_refused :
  Py.eq_int http_status 200 = false ->
  BatchInferer.cancel_batch command_reply (self, ss) = (Raise RuntimeError, (self, sent)).
Proof.
  intros H200. rewrite cancel_batch_answered, H200. reflexivity.
Qed.

End Cancel.

Lemma cancel_batch_requires_job_witness :
  BatchInferer.cancel_batch accepting_service (unsubmitted_job None, empty_session)
  = (Raise ValueError, (unsubmitted_job None, empty_session)).
Proof.
  apply (cancel_batch_requires_job accepting_service (unsubmitted_job None) empty_session).
  left. reflexivity.
Defined.

Lemma cancel_batch_then_check_complete_witness :
  let sent := {| BatchInferer.world := empty_world;
                 BatchInferer.commands :=
                   [BatchInferer.StopModelInvocationJob sample_job_arn] |} in
  BatchInferer.cancel_batch accepting_service
    (sample_job (PStr "InProgress"), empty_session)
  = (Return tt, (sample_job (PStr "Stopped"), sent))
  /\ BatchInferer.querying (BatchInferer.check_complete (sample_env "InProgress"))
       (sample_job (PStr "Stopped"), sent)
     = (Return (PStr "Stopped"), (sample_job (PStr "Stopped"), sent)).
Proof.
  apply (cancel_batch_then_check_complete accepting_service
           (sample_job (PStr "InProgress")) empty_session sample_job_arn
           (PDict [("ResponseMetadata", PDict [("HTTPStatusCode", PInt 200)])])
           (PDict [("HTTPStatusCode", PInt 200)]) (PInt 200)
           eq_refl ltac:(discriminate) eq_refl eq_refl eq_refl
           (sample_env "InProgress") eq_refl).
Defined.

Lemma cancel_batch_refused_witness :
  BatchInferer.cancel_batch (service_answering 500)
    (sample_job (PStr "InProgress"), empty_session)
  = (Raise RuntimeError,
     (sample_job (PStr "InProgress"),
      {| BatchInferer.world := empty_world;
         BatchInferer.commands := [BatchInferer.StopModelInvocationJob sample_job_arn] |})).
Proof.
  apply (cancel_batch_refused (service_answering 500)
           (sample_job (PStr "InProgress")) empty_session sample_job_arn
           (PDict [("ResponseMetadata", PDict [("HTTPStatusCode", PInt 500)])])
           (PDict [("HTTPStatusCode", PInt 500)]) (PInt 500)
           eq_refl ltac:(discriminate) eq_refl eq_refl eq_refl eq_refl).
Defined.

(** ** Creation *)

Section Create.

Variable command_reply : BatchInferer.Command -> Outcome pyval.
Variables (self : BatchInferer.t) (ss : BatchInferer.Session).

(** X24.  Without prepared requests, [None] or an empty list, [create]
    raises [AttributeError]; it sends nothing and changes nothing. *)
Theorem create_requires_requests :
  BatchInferer.requests self = None \/ BatchInferer.requests self = Some [] ->
  BatchInferer.create command_reply (self, ss) = (Raise AttributeError, (self, ss)).
Proof.
  intros Hreq. unfold BatchInferer.create, bind, BatchInferer.querying,
    BatchInferer.self_. destruct ss as [w cs].
  cbn [fst snd BatchInferer.world BatchInferer.commands].
  destruct Hreq as [H|H]; rewrite H; reflexivity.
Qed.

Variables (first : pyval) (others : list pyval) (response : pyval).
Hypothesis Hreq : BatchInferer.requests self = Some (first :: others).

Let command : BatchInferer.Command :=
  BatchInferer.CreateModelInvocationJob
    (BatchInferer.job_name self) (BatchInferer.role_arn self)
    (BatchInferer.model_name self)
    (BatchInferer.bucket_uri self ++ "/input/" ++ BatchInferer.file_name self)
    (BatchInferer.bucket_uri self ++ "/output/")
    (BatchInferer.time_out_duration_hours self).

Let sent : BatchInferer.Session :=
  {| BatchInferer.world := BatchInferer.world ss;
     BatchInferer.commands := command :: BatchInferer.commands ss |}.

Hypothesis Hreply : command_reply command = Return response.


(** X26.  When the answer is falsy, or has a status other than 200,
    [create] raises [RuntimeError] and the instance is as it was: it has no
    job identifier it did not have before. *)
Theorem create_refused :
  (Py.truthy response = false
   \/ exists metadata http_status : pyval,
        Py.truthy response = true
        /\ Py.getitem response "ResponseMetadata" = Return metadata
        /\ Py.getitem metadata "HTTPStatusCode" = Return http_status
        /\ Py.eq_int http_status 200 = false) ->
  BatchInferer.create command_reply (self, ss) = (Raise RuntimeError, (self, sent)).
Proof.
  intros Hrefused.
  unfold BatchInferer.create, bind, BatchInferer.querying, BatchInferer.self_,
    BatchInferer.send, lift, BatchInferer.update, ret, raise.
  destruct ss as [w cs]. cbn [fst snd BatchInferer.world BatchInferer.commands].
  rewrite Hreq. cbn [fst snd BatchInferer.world BatchInferer.commands].
  fold command. rewrite Hreply.
  destruct Hrefused as [Hfalsy|(metadata & http_status & Htruthy & Hmeta & Hhttp & H200)].
  - rewrite Hfalsy. reflexivity.
  - rewrite Htruthy, Hmeta, Hhttp, H200. reflexivity.
Qed.

End Create.

Lemma create_requires_requests_witness :
  BatchInferer.create accepting_service (unsubmitted_job None, empty_session)
  = (Raise AttributeError, (unsubmitted_job None, empty_session)).
Proof.
  apply (create_requires_requests accepting_service (unsubmitted_job None) empty_session).
  left. reflexivity.
Defined.


Lemma create_refused_witness :
  BatchInferer.create (service_answering 403)
    (unsubmitted_job (Some [PDict []; PDict []]), empty_session)
  = (Raise RuntimeError,
     (unsubmitted_job (Some [PDict []; PDict []]),
      {| BatchInferer.world := empty_world;
         BatchInferer.commands :=
           [BatchInferer.CreateModelInvocationJob "batch-job-2024-01-01" sample_role_arn
              (PStr "anthropic.claude-3-haiku-20240307-v1:0")
              "s3://my-inference-bucket/input/batch-job-2024-01-01.jsonl"
              "s3://my-inference-bucket/output/" 24] |})).
Proof.
  apply (create_refused (service_answering 403)
           (unsubmitted_job (Some [PDict []; PDict []])) empty_session
           (PDict []) [PDict []]
           (PDict [("ResponseMetadata", PDict [("HTTPStatusCode", PInt 403)])])
           eq_refl eq_refl).
  right. exists (PDict [("HTTPStatusCode", PInt 403)]), (PInt 403).
  repeat split; reflexivity.
Defined.

(** ** The submission file *)

Section SubmissionFile.

Variable env : Env.
Variable command_reply : BatchInferer.Command -> Outcome pyval.
Variable json_dumps : pyval -> string.

Lemma loads_lines_of_dumps (records : list pyval) :
  (forall record : pyval,
      List.In record records ->
      json_loads_stripped env (json_dumps record ++ BatchInferer.newline) = Return record) ->
  loads_lines env
    (List.map (fun record => json_dumps record ++ BatchInferer.newline) records)
  = Return records.
Proof.
  induction records as [|record rest IH]; intros Hround; [reflexivity|].
  cbn [List.map loads_lines].
  rewrite (Hround record (or_introl eq_refl)). cbn [obind].
  rewrite IH; [reflexivity|].
  intros r Hin. apply Hround. right. exact Hin.
Qed.

(** X27.  What [_write_requests_locally] writes, [_read_jsonl] reads back:
    if [json.loads] undoes [json.dumps] on every request, line feed
    included, then after the requests are written, reading the submission
    file returns the requests, in order.  Writing changes no attribute of
    the instance and no other file. *)
Theorem written_requests_read_back
    (self : BatchInferer.t) (w : World) (records : list pyval) :
  BatchInferer.requests self = Some records ->
  (forall record : pyval,
      List.In record records ->
      json_loads_stripped env (json_dumps record ++ BatchInferer.newline) = Return record) ->
  exists w' : World,
    BatchInferer._write_requests_locally json_dumps (self, w) = (Return tt, (self, w'))
    /\ _read_jsonl env (BatchInferer.file_name self) w' = (Return records, w')
    /\ calls w' = calls w
    /\ forall path : string,
         path <> BatchInferer.file_name self -> files w' path = files w path.
Proof.
  intros Hreq Hround.
  exists (write_file (BatchInferer.file_name self)
            (List.map (fun record => json_dumps record ++ BatchInferer.newline) records) w).
  split; [|split; [|split]].
  - unfold BatchInferer._write_requests_locally, bind, BatchInferer.self_,
      BatchInferer.in_world. cbn [fst snd]. rewrite Hreq. reflexivity.
  - unfold _read_jsonl, write_file. cbn [files]. rewrite String.eqb_refl.
    rewrite (loads_lines_of_dumps records Hround). reflexivity.
  - reflexivity.
  - intros path Hpath. unfold write_file. cbn [files].
    apply String.eqb_neq in Hpath. rewrite Hpath. reflexivity.
Qed.

(** X28.  Called before any request is prepared, [_write_requests_locally]
    raises [TypeError], from the length it takes of [None] for its log
    message, and writes no file; [push_requests_to_s3], which starts with
    it, raises the same and uploads nothing. *)
Theorem push_requests_without_requests
    (self : BatchInferer.t) (ss : BatchInferer.Session) :
  BatchInferer.requests self = None ->
  BatchInferer._write_requests_locally json_dumps (self, BatchInferer.world ss)
  = (Raise TypeError, (self, BatchInferer.world ss))
  /\ BatchInferer.push_requests_to_s3 command_reply json_dumps (self, ss)
     = (Raise TypeError, (self, ss)).
Proof.
  intros Hreq.
  assert (Hwrite : BatchInferer._write_requests_locally json_dumps
                     (self, BatchInferer.world ss)
                   = (Raise TypeError, (self, BatchInferer.world ss))).
  { unfold BatchInferer._write_requests_locally, bind, BatchInferer.self_.
    cbn [fst]. rewrite Hreq. reflexivity. }
  split; [exact Hwrite|].
  unfold BatchInferer.push_requests_to_s3. unfold bind at 1.
  unfold BatchInferer.querying at 1. cbn [fst snd]. rewrite Hwrite.
  destruct ss; reflexivity.
Qed.

(** With requests prepared, [push_requests_to_s3] writes the submission
    file and then uploads it, from [<file name>] to the key
    [input/<file name>] of the bucket, and returns the answer of the
    upload. *)
Lemma push_requests_uploads_submission
    (self : BatchInferer.t) (ss : BatchInferer.Session) (records : list pyval) :
  BatchInferer.requests self = Some records ->
  let upload :=
    BatchInferer.UploadFile (BatchInferer.file_name self) (BatchInferer.bucket_name self)
      ("input/" ++ BatchInferer.file_name self) in
  BatchInferer.push_requests_to_s3 command_reply json_dumps (self, ss)
  = (command_reply upload,
     (self,
      {| BatchInferer.world :=
           write_file (BatchInferer.file_name self)
             (List.map (fun record => json_dumps record ++ BatchInferer.newline) records)
             (BatchInferer.world ss);
         BatchInferer.commands := upload :: BatchInferer.commands ss |})).
Proof.
  intros Hreq upload.
  unfold BatchInferer.push_requests_to_s3, bind, BatchInferer.querying,
    BatchInferer._write_requests_locally, bind, BatchInferer.self_,
    BatchInferer.in_world, BatchInferer.send.
  cbn [fst snd]. rewrite Hreq. reflexivity.
Qed.

End SubmissionFile.

Lemma written_requests_read_back_witness :
  exists w' : World,
    BatchInferer._write_requests_locally sample_json_dumps
      (unsubmitted_job (Some [PDict []; PList []]), empty_world)
    = (Return tt, (unsubmitted_job (Some [PDict []; PList []]), w'))
    /\ _read_jsonl env_reading_lines "batch-job-2024-01-01.jsonl" w'
       = (Return [PDict []; PList []], w')
    /\ calls w' = calls empty_world
    /\ forall path : string,
         path <> "batch-job-2024-01-01.jsonl" -> files w' path = files empty_world path.
Proof.
  apply (written_requests_read_back env_reading_lines sample_json_dumps
           (unsubmitted_job (Some [PDict []; PList []])) empty_world
           [PDict []; PList []] eq_refl).
  intros record [H|[H|[]]]; subst record; reflexivity.
Defined.

Lemma push_requests_without_requests_witness :
  BatchInferer._write_requests_locally sample_json_dumps
    (unsubmitted_job None, empty_world)
  = (Raise TypeError, (unsubmitted_job None, empty_world))
  /\ BatchInferer.push_requests_to_s3 accepting_service sample_json_dumps
       (unsubmitted_job None, empty_session)
     = (Raise TypeError, (unsubmitted_job None, empty_session)).
Proof.
  apply (push_requests_without_requests accepting_service sample_json_dumps
           (unsubmitted_job None) empty_session eq_refl).
Defined.
